(** * realtime-ai-backend: the tool-augmented conversation orchestrator

    A shallow embedding of [main.py]: the tool functions and
    [process_tool_call], the [SessionManager], [stream_llm_response] and the
    body of [websocket_endpoint], followed by the properties of the
    specification that are decided by that code.

    Conventions.
    - A Python [str] is a [string]; a character is one code point below 256.
    - A value that came out of JSON (a tool input, a client frame) is a
      [json]; a Python [dict] with string keys is an association list in
      insertion order, read with [dict_get].
    - An exception is a value of [exn]; a computation that may raise returns
      a [result], and one that also touches the process state is in [M].
    - The state of the process is a [world]: the two dicts of the manager,
      the list objects they refer to, and a record of what left the process
      (frames sent, model-service calls, event-log entries).
    - The code between two frames of one connection runs as one step; a
      socket that is registered accepts every frame given to it. The session
      table of the database is written at connect and at disconnect only and
      is not part of the state. *)

From Stdlib Require Import ZArith Ascii String DecimalString.
From stdpp Require Import gmap strings list fin_maps.

Set Warnings "-register-all".

(** ** Python values *)

Inductive json : Type :=
| JNull
| JBool (b : bool)
| JInt (n : Z)
| JFloat (repr : string)   (* a finite float, kept as the text of its repr *)
| JStr (s : string)
| JArr (xs : list json)
| JObj (kvs : list (string * json)).

Inductive exn : Type :=
| TypeError (msg : string)
| AttributeError (msg : string)
| ServiceError (msg : string).   (* raised by the model-service client *)

(** [str(e)] *)
Definition exn_str (e : exn) : string :=
  match e with
  | TypeError m | AttributeError m | ServiceError m => m
  end.

Inductive result (A : Type) : Type :=
| Ok (a : A)
| Err (e : exn).
Arguments Ok {A} a.
Arguments Err {A} e.

Definition result_bind {A B} (r : result A) (f : A -> result B) : result B :=
  match r with
  | Ok a => f a
  | Err e => Err e
  end.

(** [d.get(key, default)] on a dict given in insertion order *)
Fixpoint dict_get (d : list (string * json)) (key : string) : option json :=
  match d with
  | [] => None
  | (k, v) :: rest => if String.eqb k key then Some v else dict_get rest key
  end.

Definition dict_get_default (d : list (string * json)) (key : string)
    (default : json) : json :=
  match dict_get d key with
  | Some v => v
  | None => default
  end.

(** ** Text of Python values *)

Definition chr (n : nat) : string := String (ascii_of_nat n) EmptyString.

Definition dquote : string := chr 34.
Definition backslash : string := chr 92.

Definition hex_digit (n : nat) : string :=
  match n with
  | 0 => "0" | 1 => "1" | 2 => "2" | 3 => "3" | 4 => "4" | 5 => "5"
  | 6 => "6" | 7 => "7" | 8 => "8" | 9 => "9" | 10 => "a" | 11 => "b"
  | 12 => "c" | 13 => "d" | 14 => "e" | _ => "f"
  end%nat.

Definition hex2 (n : nat) : string :=
  hex_digit (n / 16) +:+ hex_digit (n mod 16).

(** [int.__repr__] *)
Definition int_repr (n : Z) : string := NilZero.string_of_int (Z.to_int n).

Fixpoint string_flat_map (f : ascii -> string) (s : string) : string :=
  match s with
  | EmptyString => EmptyString
  | String c rest => f c +:+ string_flat_map f rest
  end.

Fixpoint string_mem (c : ascii) (s : string) : bool :=
  match s with
  | EmptyString => false
  | String c' rest => Ascii.eqb c c' || string_mem c rest
  end.

(** [s[:n]] on a string *)
Fixpoint string_take (n : nat) (s : string) : string :=
  match n, s with
  | S n', String c rest => String c (string_take n' rest)
  | _, _ => EmptyString
  end.

(** One character of [json.dumps] with [ensure_ascii=True]. *)
Definition json_escape_char (c : ascii) : string :=
  let n := nat_of_ascii c in
  if (n =? 34)%nat then backslash +:+ dquote
  else if (n =? 92)%nat then backslash +:+ backslash
  else if (n =? 10)%nat then backslash +:+ "n"
  else if (n =? 13)%nat then backslash +:+ "r"
  else if (n =? 9)%nat then backslash +:+ "t"
  else if (n =? 8)%nat then backslash +:+ "b"
  else if (n =? 12)%nat then backslash +:+ "f"
  else if ((n <? 32) || (126 <? n))%nat then backslash +:+ "u00" +:+ hex2 n
  else String c EmptyString.

Definition json_string (s : string) : string :=
  dquote +:+ string_flat_map json_escape_char s +:+ dquote.

(** [json.dumps(v)] with the default separators *)
Fixpoint json_dumps (v : json) : string :=
  match v with
  | JNull => "null"
  | JBool true => "true"
  | JBool false => "false"
  | JInt n => int_repr n
  | JFloat r => r
  | JStr s => json_string s
  | JArr xs =>
      "[" +:+
      (fix items (l : list json) : string :=
         match l with
         | [] => ""
         | x :: rest =>
             json_dumps x +:+
             match rest with [] => "" | _ => ", " +:+ items rest end
         end) xs
      +:+ "]"
  | JObj kvs =>
      "{" +:+
      (fix items (l : list (string * json)) : string :=
         match l with
         | [] => ""
         | (k, x) :: rest =>
             json_string k +:+ ": " +:+ json_dumps x +:+
             match rest with [] => "" | _ => ", " +:+ items rest end
         end) kvs
      +:+ "}"
  end.

(** Characters below 256 that [str.isprintable] rejects. *)
Definition unprintable (n : nat) : bool :=
  ((n <? 32) || ((126 <? n) && (n <? 161)) || (n =? 173))%nat.

(** One character of [repr] of a string delimited by [quote]. *)
Definition repr_escape_char (quote : ascii) (c : ascii) : string :=
  let n := nat_of_ascii c in
  if (n =? 92)%nat then backslash +:+ backslash
  else if Ascii.eqb c quote then backslash +:+ String c EmptyString
  else if (n =? 9)%nat then backslash +:+ "t"
  else if (n =? 10)%nat then backslash +:+ "n"
  else if (n =? 13)%nat then backslash +:+ "r"
  else if unprintable n then backslash +:+ "x" +:+ hex2 n
  else String c EmptyString.

(** [repr(s)]: single quotes, unless [s] holds a single quote and no double
    quote. *)
Definition str_repr (s : string) : string :=
  let sq := ascii_of_nat 39 in
  let dq := ascii_of_nat 34 in
  let quote := if string_mem sq s && negb (string_mem dq s) then dq else sq in
  String quote (string_flat_map (repr_escape_char quote) s)
  +:+ String quote EmptyString.

(** [repr(v)] *)
Fixpoint py_repr (v : json) : string :=
  match v with
  | JNull => "None"
  | JBool true => "True"
  | JBool false => "False"
  | JInt n => int_repr n
  | JFloat r => r
  | JStr s => str_repr s
  | JArr xs =>
      "[" +:+
      (fix items (l : list json) : string :=
         match l with
         | [] => ""
         | x :: rest =>
             py_repr x +:+
             match rest with [] => "" | _ => ", " +:+ items rest end
         end) xs
      +:+ "]"
  | JObj kvs =>
      "{" +:+
      (fix items (l : list (string * json)) : string :=
         match l with
         | [] => ""
         | (k, x) :: rest =>
             str_repr k +:+ ": " +:+ py_repr x +:+
             match rest with [] => "" | _ => ", " +:+ items rest end
         end) kvs
      +:+ "}"
  end.

(** The text a replacement field [{v}] of an f-string produces: [str(v)]. *)
Definition py_format (v : json) : string :=
  match v with
  | JStr s => s
  | _ => py_repr v
  end.

(** [v[:n]].  A string and a list are sliced; every other value raises.
    (For a dict the interpreter raises [TypeError] up to Python 3.11 and
    [KeyError] from 3.12 on, where slices are hashable.) *)
Definition py_slice_to (n : nat) (v : json) : result json :=
  match v with
  | JStr s => Ok (JStr (string_take n s))
  | JArr xs => Ok (JArr (take n xs))
  | JInt _ => Err (TypeError "'int' object is not subscriptable")
  | JFloat _ => Err (TypeError "'float' object is not subscriptable")
  | JBool _ => Err (TypeError "'bool' object is not subscriptable")
  | JNull => Err (TypeError "'NoneType' object is not subscriptable")
  | JObj _ => Err (TypeError "unhashable type: 'slice'")
  end.

(** ** Tool functions *)

Definition fetch_user_data (user_id : json) : result json :=
  result_bind (py_slice_to 8 user_id) (fun p1 =>
  result_bind (py_slice_to 8 user_id) (fun p2 =>
  Ok (JObj [ ("user_id", user_id);
             ("name", JStr ("User " +:+ py_format p1));
             ("email", JStr ("user" +:+ py_format p2 +:+ "@example.com"));
             ("account_status", JStr "active") ]))).

Definition fetch_conversation_analytics (session_id : json) : json :=
  JObj [ ("session_id", session_id);
         ("message_count", JInt 5);
         ("avg_response_time", JFloat "1.2");
         ("sentiment", JStr "positive") ].

Definition process_tool_call (tool_name : string)
    (tool_input : list (string * json)) : result string :=
  if String.eqb tool_name "fetch_user_data" then
    result_bind
      (fetch_user_data (dict_get_default tool_input "user_id" (JStr "unknown")))
      (fun r => Ok (json_dumps r))
  else if String.eqb tool_name "fetch_conversation_analytics" then
    let r := fetch_conversation_analytics
               (dict_get_default tool_input "session_id" (JStr "unknown")) in
    Ok (json_dumps r)
  else Ok (json_dumps (JObj [("error", JStr "Unknown tool")])).

(** ** Conversation data *)

(** A [tool_use] content block of a model response. *)
Record tool_use : Type := {
  id : string;
  name : string;
  input : list (string * json) }.

(** The content blocks the loop distinguishes: a block with a [text]
    attribute, and a block whose [type] is ["tool_use"]. *)
Inductive block : Type :=
| TextBlock (text : string)
| ToolUseBlock (t : tool_use).

(** [{"type": "tool_result", "tool_use_id": ..., "content": ...}] *)
Record tool_result : Type := {
  tool_use_id : string;
  result_content : string }.

Inductive content_t : Type :=
| Plain (v : json)                   (* a user message, or the returned text *)
| Blocks (bs : list block)           (* [response.content] *)
| ToolResults (rs : list tool_result).

(** [{"role": ..., "content": ...}] *)
Record message : Type := {
  role : string;
  content : content_t }.

Record response : Type := {
  stop_reason : string;
  response_content : list block }.

(** ** Process state *)

(** A list object is a location of the heap: two names for one list see each
    other's [append]. *)
Definition loc := nat.
Definition websocket := nat.

(** A value stored in a session-state dict. *)
Inductive value : Type :=
| VStr (s : string)
| VList (l : loc).

Record world : Type := {
  active_connections : gmap string websocket;
  session_states : gmap string (gmap string value);
  heap : list (list message);
  sent : list (websocket * json);               (* frames given to [send_json] *)
  calls : list (list message * result response); (* model-service calls so far *)
  event_logs : list (string * string * string) }.

Definition set_active_connections (c : gmap string websocket) (w : world) : world :=
  {| active_connections := c;
     session_states := session_states w; heap := heap w; sent := sent w;
     calls := calls w; event_logs := event_logs w |}.

Definition set_session_states (s : gmap string (gmap string value)) (w : world)
    : world :=
  {| active_connections := active_connections w;
     session_states := s; heap := heap w; sent := sent w;
     calls := calls w; event_logs := event_logs w |}.

Definition set_heap (h : list (list message)) (w : world) : world :=
  {| active_connections := active_connections w;
     session_states := session_states w; heap := h; sent := sent w;
     calls := calls w; event_logs := event_logs w |}.

Definition set_sent (s : list (websocket * json)) (w : world) : world :=
  {| active_connections := active_connections w;
     session_states := session_states w; heap := heap w; sent := s;
     calls := calls w; event_logs := event_logs w |}.

Definition set_calls (c : list (list message * result response)) (w : world)
    : world :=
  {| active_connections := active_connections w;
     session_states := session_states w; heap := heap w; sent := sent w;
     calls := c; event_logs := event_logs w |}.

Definition set_event_logs (l : list (string * string * string)) (w : world)
    : world :=
  {| active_connections := active_connections w;
     session_states := session_states w; heap := heap w; sent := sent w;
     calls := calls w; event_logs := l |}.

Definition empty_world : world :=
  {| active_connections := ∅; session_states := ∅; heap := []; sent := [];
     calls := []; event_logs := [] |}.

(** How a computation ends: it returns, it raises, or the loop is still
    running when the iteration budget of the model is used up. The state
    reached is kept in every case: an exception undoes nothing. *)
Inductive outcome (A : Type) : Type :=
| Ret (a : A) (w : world)
| Raise (e : exn) (w : world)
| Timeout (w : world).
Arguments Ret {A} a w.
Arguments Raise {A} e w.
Arguments Timeout {A} w.

Definition M (A : Type) : Type := world -> outcome A.

Definition ret {A} (a : A) : M A := fun w => Ret a w.

Definition bind {A B} (m : M A) (k : A -> M B) : M B :=
  fun w =>
    match m w with
    | Ret a w' => k a w'
    | Raise e w' => Raise e w'
    | Timeout w' => Timeout w'
    end.

Definition raise {A} (e : exn) : M A := fun w => Raise e w.

Definition timeout {A} : M A := fun w => Timeout w.

Definition lift {A} (r : result A) : M A :=
  match r with
  | Ok a => ret a
  | Err e => raise e
  end.

(** [try: body / except Exception as e: handler] *)
Definition try_except {A} (body : M A) (handler : exn -> M A) : M A :=
  fun w =>
    match body w with
    | Raise e w' => handler e w'
    | o => o
    end.

Notation "'let!' x ':=' m 'in' k" := (bind m (fun x => k))
  (at level 10, x name, m at level 100, k at level 200).
Notation "'run!' m 'in' k" := (bind m (fun _ => k))
  (at level 10, m at level 100, k at level 200).

Definition final_world {A} (o : outcome A) : world :=
  match o with
  | Ret _ w | Raise _ w | Timeout w => w
  end.

(** ** SessionManager *)

(** [connect]: [uid] and [now] stand for [str(uuid.uuid4())] and
    [datetime.utcnow().isoformat()]. The ["messages"] entry is a new empty
    list. *)
Definition connect (ws : websocket) (session_id uid now : string) : M unit :=
  fun w =>
    let l := length (heap w) in
    Ret tt
      (set_session_states
         (<[session_id :=
              <["messages" := VList l]>
                (<["user_id" := VStr uid]>
                   (<["start_time" := VStr now]> ∅))]>
            (session_states w))
         (set_active_connections (<[session_id := ws]> (active_connections w))
            (set_heap (heap w ++ [[]]) w))).

Definition disconnect (session_id : string) : M unit :=
  fun w =>
    match active_connections w !! session_id with
    | Some _ => Ret tt (set_active_connections (delete session_id (active_connections w)) w)
    | None => Ret tt w
    end.

Definition send_message (session_id : string) (msg : json) : M unit :=
  fun w =>
    match active_connections w !! session_id with
    | Some ws => Ret tt (set_sent (sent w ++ [(ws, msg)]) w)
    | None => Ret tt w
    end.

Definition get_session_state (session_id : string) : M (gmap string value) :=
  fun w =>
    match session_states w !! session_id with
    | Some st => Ret st w
    | None => Ret ∅ w
    end.

(** [dict.update]: the entries of [state] replace those under the same key. *)
Definition update_session_state (session_id : string)
    (state : gmap string value) : M unit :=
  fun w =>
    match session_states w !! session_id with
    | Some st => Ret tt (set_session_states (<[session_id := state ∪ st]> (session_states w)) w)
    | None => Ret tt w
    end.

(** ** Heap access *)

(** The current elements of a list object. *)
Definition read_list (l : loc) : M (list message) :=
  fun w =>
    match heap w !! l with
    | Some ms => Ret ms w
    | None => Ret [] w
    end.

(** [xs.append(m)] on a list object *)
Definition list_append (l : loc) (m : message) : M unit :=
  fun w =>
    match heap w !! l with
    | Some ms => Ret tt (set_heap (<[l := ms ++ [m]]> (heap w)) w)
    | None => Ret tt w
    end.

(** [state.get("messages", [])]: the stored list, or a new empty one. *)
Definition state_get_messages (state : gmap string value) : M value :=
  match state !! "messages" with
  | Some v => ret v
  | None =>
      fun w => Ret (VList (length (heap w))) (set_heap (heap w ++ [[]]) w)
  end.

(** [data.get("message", "")] on a received frame. *)
Definition frame_get_message (data : json) : result json :=
  match data with
  | JObj d => Ok (dict_get_default d "message" (JStr ""))
  | JArr _ => Err (AttributeError "'list' object has no attribute 'get'")
  | JStr _ => Err (AttributeError "'str' object has no attribute 'get'")
  | JInt _ => Err (AttributeError "'int' object has no attribute 'get'")
  | JFloat _ => Err (AttributeError "'float' object has no attribute 'get'")
  | JBool _ => Err (AttributeError "'bool' object has no attribute 'get'")
  | JNull => Err (AttributeError "'NoneType' object has no attribute 'get'")
  end.

(** ** The tool-call loop *)

(** [for block in content: if hasattr(block, 'text'): response_text += block.text] *)
Definition add_texts (response_text : string) (blocks : list block) : string :=
  fold_left
    (fun acc b => match b with TextBlock t => acc +:+ t | ToolUseBlock _ => acc end)
    blocks response_text.

(** [[block for block in content if block.type == "tool_use"]] *)
Definition tool_calls_of (blocks : list block) : list tool_use :=
  flat_map (fun b => match b with ToolUseBlock t => [t] | TextBlock _ => [] end)
    blocks.

Definition tool_use_frame (tool : string) : json :=
  JObj [("type", JStr "tool_use"); ("tool", JStr tool); ("status", JStr "completed")].

(** The first [for] of the loop body: run each tool, then tell the client. *)
Fixpoint notify_tool_calls (session_id : string) (tool_calls : list tool_use)
    : M unit :=
  match tool_calls with
  | [] => ret tt
  | tool_call :: rest =>
      let! tool_result := lift (process_tool_call (name tool_call) (input tool_call)) in
      run! send_message session_id (tool_use_frame (name tool_call)) in
      notify_tool_calls session_id rest
  end.

(** The list comprehension building [tool_results]: each tool runs again. *)
Fixpoint build_tool_results (tool_calls : list tool_use)
    : result (list tool_result) :=
  match tool_calls with
  | [] => Ok []
  | tool_call :: rest =>
      result_bind (process_tool_call (name tool_call) (input tool_call)) (fun c =>
      result_bind (build_tool_results rest) (fun rs =>
      Ok ({| tool_use_id := id tool_call; result_content := c |} :: rs)))
  end.

Section Orchestrator.

(** The model service: what the [n]-th call of the process ([n] counted from
    0) answers when given [messages]. Any behaviour of the service, also one
    that depends on everything that happened before, is such a function. *)
Variable create : nat -> list message -> result response.

(** [claude.messages.create(..., messages=messages)] *)
Definition messages_create (messages : list message) : M response :=
  fun w =>
    let r := create (length (calls w)) messages in
    let w' := set_calls (calls w ++ [(messages, r)]) w in
    match r with
    | Ok resp => Ret resp w'
    | Err e => Raise e w'
    end.

(** The body of the [while] loop up to the next model call: the message list
    that call is given. [messages] is the caller's list object. *)
Definition tool_round (session_id : string) (messages : loc) (resp : response)
    : M (list message) :=
  let tool_calls := tool_calls_of (response_content resp) in
  run! notify_tool_calls session_id tool_calls in
  let! ms := read_list messages in
  let messages_with_response :=
    ms ++ [ {| role := "assistant"; content := Blocks (response_content resp) |} ] in
  let! tool_results := lift (build_tool_results tool_calls) in
  ret (messages_with_response
         ++ [ {| role := "user"; content := ToolResults tool_results |} ]).

(** [while response.stop_reason == "tool_use": ...] followed by the final
    [for]; [fuel] bounds the iterations the model follows. *)
Fixpoint tool_loop (fuel : nat) (session_id : string) (messages : loc)
    (resp : response) (response_text : string) : M string :=
  if String.eqb (stop_reason resp) "tool_use" then
    match fuel with
    | O => timeout
    | S fuel' =>
        let response_text := add_texts response_text (response_content resp) in
        let! messages_with_response := tool_round session_id messages resp in
        let! resp' := messages_create messages_with_response in
        tool_loop fuel' session_id messages resp' response_text
    end
  else ret (add_texts response_text (response_content resp)).

Definition stream_llm_response (fuel : nat) (session_id : string)
    (messages : loc) : M string :=
  let! ms := read_list messages in
  let! resp := messages_create ms in
  tool_loop fuel session_id messages resp "".

(** [log_event]: the record reaches the event log; nothing it does can fail
    the caller. *)
Definition log_event (session_id event_type : string) (data : json) : M unit :=
  fun w =>
    Ret tt (set_event_logs (event_logs w ++ [(session_id, event_type, json_dumps data)]) w).

(** ** The websocket endpoint *)

(** The endpoint up to its [while True]: register the connection and greet
    the client. (The session record goes to the database only.) *)
Definition endpoint_open (ws : websocket) (session_id uid now : string) : M unit :=
  run! connect ws session_id uid now in
  send_message session_id
    (JObj [("type", JStr "connection"); ("status", JStr "connected");
           ("session_id", JStr session_id)]).

(** The [try] / [except Exception] of the loop body; [l] is the list the
    user message was appended to. *)
Definition try_respond (fuel : nat) (session_id : string) (l : loc) : M unit :=
  try_except
    (let! response_text := stream_llm_response fuel session_id l in
     run! log_event session_id "ai_response"
            (JObj [("content", JStr response_text)]) in
     run! list_append l
            {| role := "assistant"; content := Plain (JStr response_text) |} in
     run! update_session_state session_id {[ "messages" := VList l ]} in
     send_message session_id
       (JObj [("type", JStr "response"); ("content", JStr response_text)]))
    (fun e =>
       send_message session_id
         (JObj [("type", JStr "error"); ("content", JStr (exn_str e))])).

(** One iteration of [while True], for the received frame [data]. *)
Definition endpoint_receive (fuel : nat) (session_id : string) (data : json)
    : M unit :=
  let! user_message := lift (frame_get_message data) in
  run! log_event session_id "user_message" (JObj [("content", user_message)]) in
  let! state := get_session_state session_id in
  let! messages := state_get_messages state in
  match messages with
  | VStr _ => raise (AttributeError "'str' object has no attribute 'append'")
  | VList l =>
      run! list_append l {| role := "user"; content := Plain user_message |} in
      try_respond fuel session_id l
  end.

(** The [except WebSocketDisconnect] branch. (The end time goes to the
    database only.) *)
Definition endpoint_close (session_id : string) : M unit :=
  disconnect session_id.

(** The transcript stored for a session: the elements of the list under
    ["messages"] in its state. *)
Definition transcript (w : world) (session_id : string) : option (list message) :=
  match session_states w !! session_id with
  | Some st =>
      match st !! "messages" with
      | Some (VList l) => heap w !! l
      | _ => None
      end
  | None => None
  end.

End Orchestrator.

(** ** Operations of the endpoint *)

(** What happens to the process over time: a connection is opened, a frame
    arrives on a connection, a connection is closed. *)
Inductive operation : Type :=
| Open (ws : websocket) (session_id uid now : string)
| Receive (fuel : nat) (session_id : string) (data : json)
| Close (session_id : string).

Definition run_operation (create : nat -> list message -> result response)
    (op : operation) : M unit :=
  match op with
  | Open ws session_id uid now => endpoint_open ws session_id uid now
  | Receive fuel session_id data => endpoint_receive create fuel session_id data
  | Close session_id => endpoint_close session_id
  end.

Fixpoint run_operations (create : nat -> list message -> result response)
    (ops : list operation) (w : world) : world :=
  match ops with
  | [] => w
  | op :: rest => run_operations create rest (final_world (run_operation create op w))
  end.

Definition reopens (session_id : string) (op : operation) : bool :=
  match op with
  | Open _ sid _ _ => String.eqb sid session_id
  | _ => false
  end.

(** ** Vocabulary of the properties *)

Definition text_fragments (blocks : list block) : list string :=
  flat_map (fun b => match b with TextBlock t => [t] | ToolUseBlock _ => [] end)
    blocks.

Definition concat_strings (l : list string) : string :=
  foldr String.append "" l.

(** The responses the service gave in a stretch of the call log. *)
Definition observed_responses (cs : list (list message * result response))
    : list response :=
  flat_map (fun c => match snd c with Ok r => [r] | Err _ => [] end) cs.

(** The calls made after the first [n] of the log. *)
Definition calls_since (n : nat) (w : world)
    : list (list message * result response) :=
  drop n (calls w).

(** The frames [send_message] hands to the socket of a session: none when
    the session has no registered connection. *)
Definition delivered (w : world) (session_id : string) (msgs : list json)
    : list (websocket * json) :=
  match active_connections w !! session_id with
  | Some ws => map (pair ws) msgs
  | None => []
  end.

(** The heap after [append] on the list at [l]. *)
Definition heap_append (l : loc) (m : message) (h : list (list message))
    : list (list message) :=
  match h !! l with
  | Some ms => <[l := ms ++ [m]]> h
  | None => h
  end.

(** The session states after [update_session_state]. *)
Definition states_update (session_id : string) (state : gmap string value)
    (s : gmap string (gmap string value)) : gmap string (gmap string value) :=
  match s !! session_id with
  | Some st => <[session_id := state ∪ st]> s
  | None => s
  end.

Definition log_entry (session_id event_type : string) (data : json)
    : string * string * string :=
  (session_id, event_type, json_dumps data).

(** What the tool-call loop leaves alone, and what it only adds to. *)
Record extends (w w' : world) : Prop := {
  ext_connections : active_connections w' = active_connections w;
  ext_states : session_states w' = session_states w;
  ext_heap : heap w' = heap w;
  ext_logs : event_logs w' = event_logs w;
  ext_sent : sent w `prefix_of` sent w';
  ext_calls : calls w `prefix_of` calls w' }.

(** Every list object keeps its elements and may gain some at the end. *)
Definition heap_grows (h h' : list (list message)) : Prop :=
  forall (l : loc) (ms : list message),
    h !! l = Some ms -> exists suffix, h' !! l = Some (ms ++ suffix).

(** Every session that has a ["messages"] entry keeps that very entry. *)
Definition entries_kept (s s' : gmap string (gmap string value)) : Prop :=
  forall (sid : string) (st : gmap string value) (v : value),
    s !! sid = Some st -> st !! "messages" = Some v ->
    exists st', s' !! sid = Some st' /\ st' !! "messages" = Some v.

Definition grows (w w' : world) : Prop :=
  heap_grows (heap w) (heap w') /\
  entries_kept (session_states w) (session_states w').

(** The frames of a tool round, one per request. *)
Definition tool_frames (tool_calls : list tool_use) : list json :=
  map (fun t => tool_use_frame (name t)) tool_calls.

(** The tool invocation requests a response carries, in the order of its
    content blocks. Written from what a response is, block by block, and
    apart from the filter [tool_calls_of] of the code. *)
Fixpoint requests_of (blocks : list block) : list tool_use :=
  match blocks with
  | [] => []
  | TextBlock _ :: rest => requests_of rest
  | ToolUseBlock t :: rest => t :: requests_of rest
  end.

(** The tool of a request returns a result; the tool of a request raises. *)
Definition tool_returns (t : tool_use) : Prop :=
  exists c, process_tool_call (name t) (input t) = Ok c.

Definition tool_raises (t : tool_use) : Prop :=
  exists e, process_tool_call (name t) (input t) = Err e.

(** A tool name that names no tool of the code. *)
Definition unregistered (tool_name : string) : Prop :=
  tool_name <> "fetch_user_data" /\ tool_name <> "fetch_conversation_analytics".

(** The service answers its calls [first], ..., [first + n - 1] with a
    needs-tool response whose requested tools all return, whatever messages
    it is given. *)
Definition asks_for_tools (create : nat -> list message -> result response)
    (first n : nat) : Prop :=
  forall k ms,
    k < n ->
    exists r,
      create (first + k) ms = Ok r
      /\ stop_reason r = "tool_use"
      /\ Forall tool_returns (requests_of (response_content r)).

(** The service answers its call [k] with a response that asks for no tool
    round, whatever messages it is given. *)
Definition answers_for_good (create : nat -> list message -> result response)
    (k : nat) : Prop :=
  forall ms, exists r, create k ms = Ok r /\ stop_reason r <> "tool_use".

(** A value that [v[:8]] accepts. *)
Definition sliceable (v : json) : bool :=
  match v with
  | JStr _ | JArr _ => true
  | _ => false
  end.

Definition quoted (s : string) : string := dquote +:+ s +:+ dquote.

(** The text [{"error": "Unknown tool"}]. *)
Definition unknown_tool_payload : string :=
  "{" +:+ quoted "error" +:+ ": " +:+ quoted "Unknown tool" +:+ "}".

(** The text of [fetch_user_data("unknown")], serialized. *)
Definition unknown_user_record : string :=
  "{" +:+ quoted "user_id" +:+ ": " +:+ quoted "unknown" +:+ ", "
  +:+ quoted "name" +:+ ": " +:+ quoted "User unknown" +:+ ", "
  +:+ quoted "email" +:+ ": " +:+ quoted "userunknown@example.com" +:+ ", "
  +:+ quoted "account_status" +:+ ": " +:+ quoted "active" +:+ "}".

(** The text of [fetch_conversation_analytics("unknown")], serialized. *)
Definition unknown_analytics_record : string :=
  "{" +:+ quoted "session_id" +:+ ": " +:+ quoted "unknown" +:+ ", "
  +:+ quoted "message_count" +:+ ": 5, "
  +:+ quoted "avg_response_time" +:+ ": 1.2, "
  +:+ quoted "sentiment" +:+ ": " +:+ quoted "positive" +:+ "}".

Definition user_turn (v : json) : message :=
  {| role := "user"; content := Plain v |}.

Definition assistant_text_turn (text : string) : message :=
  {| role := "assistant"; content := Plain (JStr text) |}.

Definition assistant_request_turn (r : response) : message :=
  {| role := "assistant"; content := Blocks (response_content r) |}.

Definition carrier_turn (rs : list tool_result) : message :=
  {| role := "user"; content := ToolResults rs |}.

Definition response_frame (text : string) : json :=
  JObj [("type", JStr "response"); ("content", JStr text)].

Definition error_frame (text : string) : json :=
  JObj [("type", JStr "error"); ("content", JStr text)].

(** The state once a frame carrying [user_message] is logged and appended to
    the list at [l]. *)
Definition received (session_id : string) (user_message : json) (l : loc)
    (w : world) : world :=
  let w1 :=
    set_event_logs
      (event_logs w
         ++ [log_entry session_id "user_message" (JObj [("content", user_message)])])
      w in
  set_heap (heap_append l (user_turn user_message) (heap w1)) w1.

(** The state once [text], returned in state [w], is logged, appended to the
    list at [l], written to the session state and sent. *)
Definition responded (session_id : string) (l : loc) (text : string) (w : world)
    : world :=
  let w1 :=
    set_event_logs
      (event_logs w
         ++ [log_entry session_id "ai_response" (JObj [("content", JStr text)])])
      w in
  let w2 := set_heap (heap_append l (assistant_text_turn text) (heap w1)) w1 in
  let w3 :=
    set_session_states
      (states_update session_id {[ "messages" := VList l ]} (session_states w2))
      w2 in
  set_sent (sent w3 ++ delivered w3 session_id [response_frame text]) w3.

(** The state once the failure [e], raised in state [w], is reported. *)
Definition reported (session_id : string) (e : exn) (w : world) : world :=
  set_sent (sent w ++ delivered w session_id [error_frame (exn_str e)]) w.

(** ** Model-service stubs *)

Definition needs_tool (blocks : list block) : response :=
  {| stop_reason := "tool_use"; response_content := blocks |}.

Definition final (blocks : list block) : response :=
  {| stop_reason := "end_turn"; response_content := blocks |}.

(** A service that asks for a tool round on every call. *)
Definition always_tool (n : nat) (ms : list message) : result response :=
  Ok (needs_tool []).

Definition lookup_user (tid uid : string) : block :=
  ToolUseBlock {| id := tid; name := "fetch_user_data";
                  input := [("user_id", JStr uid)] |}.

(** A service that asks for the same lookup on every call. *)
Definition always_lookup (k : nat) (ms : list message) : result response :=
  Ok (needs_tool [lookup_user "tu_1" "abc123"]).

(** Two tool rounds, then a final answer. *)
Definition two_rounds (k : nat) (ms : list message) : result response :=
  match k with
  | 0 => Ok (needs_tool [TextBlock "One. "; lookup_user "tu_1" "abc123"])
  | 1 => Ok (needs_tool [TextBlock "Two. "; lookup_user "tu_2" "xyz789"])
  | _ => Ok (final [TextBlock "Three."])
  end.

(** The account-status scenario: one tool round, then the final text. *)
Definition account_status (k : nat) (ms : list message) : result response :=
  match k with
  | 0 => Ok (needs_tool [lookup_user "tu_1" "abc123"])
  | _ => Ok (final [TextBlock "Your account is active."])
  end.

(** One tool round, then the service fails. *)
Definition fails_in_round_two (k : nat) (ms : list message) : result response :=
  match k with
  | 0 => Ok (needs_tool [lookup_user "tu_1" "abc123"])
  | _ => Err (ServiceError "connection reset")
  end.

(** The service fails on its first call and answers afterwards. *)
Definition fails_first (k : nat) (ms : list message) : result response :=
  match k with
  | 0 => Err (ServiceError "connection refused")
  | _ => Ok (final [TextBlock "Hello again."])
  end.

(** A fragment with a tool request, then a final fragment. *)
Definition fragments_T1_T2 (T1 T2 : string) (k : nat) (ms : list message)
    : result response :=
  match k with
  | 0 => Ok (needs_tool [TextBlock T1; lookup_user "tu_1" "abc123"])
  | _ => Ok (final [TextBlock T2])
  end.

(** A session [s] opened on websocket 7, before any message. *)
Definition fresh_session : world :=
  final_world (endpoint_open 7 "s" "user-1" "2024-01-01T00:00:00" empty_world).

(** The same session once [list_append] has stored a first user message. *)
Definition pending_question : world :=
  final_world (list_append 0 (user_turn (JStr "What is my account status?"))
                 fresh_session).

Definition question : json :=
  JObj [("message", JStr "What is my account status?")].

(** ** Vocabulary of the further properties *)

(** The state once the user message of a frame is in the event log. *)
Definition logged (session_id : string) (user_message : json) (w : world) : world :=
  set_event_logs
    (event_logs w
       ++ [log_entry session_id "user_message" (JObj [("content", user_message)])])
    w.

(** The state with one more, empty, list object. *)
Definition allocated (w : world) : world := set_heap (heap w ++ [[]]) w.

(** The responses of a run that returns: tool rounds, then one response that
    asks for no tool. *)
Definition rounds_then_final (rs : list response) (rounds : nat) : Prop :=
  exists init last,
    rs = init ++ [last]
    /\ length init = rounds
    /\ Forall (fun r => stop_reason r = "tool_use") init
    /\ stop_reason last <> "tool_use".

(** The frames that close the handling of a received frame. *)
Definition closing_frame (f : json) : Prop :=
  (exists text, f = response_frame text) \/ (exists text, f = error_frame text).

(** Every stored session has a list of its own, and that list exists. *)
Definition well_formed (w : world) : Prop :=
  (forall sid st,
     session_states w !! sid = Some st ->
     exists l, st !! "messages" = Some (VList l) /\ is_Some (heap w !! l))
  /\
  (forall sid1 sid2 st1 st2 l,
     session_states w !! sid1 = Some st1 ->
     session_states w !! sid2 = Some st2 ->
     st1 !! "messages" = Some (VList l) ->
     st2 !! "messages" = Some (VList l) ->
     sid1 = sid2).

(** The lists differ at [l] at most, and what exists stays. *)
Definition same_elsewhere (l : loc) (h h' : list (list message)) : Prop :=
  forall l', l' <> l -> is_Some (h !! l') -> h' !! l' = h !! l'.

(** A request whose [user_id] is a number, between two well-formed ones. *)
Definition numeric_user : tool_use :=
  {| id := "tu_2"; name := "fetch_user_data"; input := [("user_id", JInt 42)] |}.

Definition known_user (tid uid : string) : tool_use :=
  {| id := tid; name := "fetch_user_data"; input := [("user_id", JStr uid)] |}.

Definition bad_tool_input (k : nat) (ms : list message) : result response :=
  match k with
  | 0 => Ok (needs_tool [ ToolUseBlock (known_user "tu_1" "abc123");
                          ToolUseBlock numeric_user;
                          ToolUseBlock (known_user "tu_3" "xyz789") ])
  | _ => Ok (final [TextBlock "Done."])
  end.

(** The list a frame for [sid] is appended to. *)
Definition target (sid : string) (w : world) : loc :=
  match default ∅ (session_states w !! sid) !! "messages" with
  | Some (VList l) => l
  | _ => length (heap w)
  end.

(** A response cut short by the token limit: it carries a tool request and
    no text, and its stop reason is not ["tool_use"]. *)
Definition cut_short (k : nat) (ms : list message) : result response :=
  Ok {| stop_reason := "max_tokens";
        response_content := [lookup_user "tu_1" "abc123"] |}.

(** * Properties *)

(** ** Strings *)

Lemma string_app_cons (x : ascii) (a b : string) :
  String x a +:+ b = String x (a +:+ b).
Proof. reflexivity. Qed.

Lemma string_app_assoc (a b c : string) : (a +:+ b) +:+ c = a +:+ (b +:+ c).
Proof.
  induction a as [|x a IH]; [reflexivity |].
  rewrite !string_app_cons. now rewrite IH.
Qed.

Lemma string_app_nil_r (a : string) : a +:+ "" = a.
Proof.
  induction a as [|x a IH]; [reflexivity |].
  rewrite string_app_cons. now rewrite IH.
Qed.

Lemma add_texts_fragments (blocks : list block) (text : string) :
  add_texts text blocks = text +:+ concat_strings (text_fragments blocks).
Proof.
  unfold add_texts. revert text.
  induction blocks as [|b blocks IH]; intros text; simpl.
  - now rewrite string_app_nil_r.
  - destruct b as [t|t]; simpl; rewrite IH.
    + apply string_app_assoc.
    + reflexivity.
Qed.

Lemma concat_strings_app (l1 l2 : list string) :
  concat_strings (l1 ++ l2) = concat_strings l1 +:+ concat_strings l2.
Proof.
  unfold concat_strings.
  induction l1 as [|x l1 IH]; simpl; [reflexivity |].
  rewrite IH. symmetry. apply string_app_assoc.
Qed.

(** ** The tool registry *)

Lemma process_tool_call_unregistered (name : string) (input : list (string * json)) :
  name <> "fetch_user_data" ->
  name <> "fetch_conversation_analytics" ->
  process_tool_call name input = Ok unknown_tool_payload.
Proof.
  intros H1 H2. unfold process_tool_call.
  apply String.eqb_neq in H1. apply String.eqb_neq in H2.
  now rewrite H1, H2.
Qed.

Lemma fetch_user_data_sliceable (v : json) :
  sliceable v = true -> exists r, fetch_user_data v = Ok r.
Proof.
  destruct v; simpl; try discriminate; intros _; unfold fetch_user_data; simpl;
    eexists; reflexivity.
Qed.

Lemma process_tool_call_returns (name : string) (input : list (string * json)) :
  (name = "fetch_user_data" ->
   sliceable (dict_get_default input "user_id" (JStr "unknown")) = true) ->
  exists s, process_tool_call name input = Ok s.
Proof.
  intros Hs. unfold process_tool_call.
  destruct (String.eqb_spec name "fetch_user_data") as [-> | _].
  - destruct (fetch_user_data_sliceable _ (Hs eq_refl)) as [r ->]. simpl. eauto.
  - destruct (String.eqb name "fetch_conversation_analytics"); eauto.
Qed.

Lemma build_tool_results_spec (tool_calls : list tool_use) (rs : list tool_result) :
  build_tool_results tool_calls = Ok rs ->
  length rs = length tool_calls /\
  map tool_use_id rs = map id tool_calls /\
  Forall2 (fun t r => process_tool_call (name t) (input t) = Ok (result_content r))
    tool_calls rs.
Proof.
  revert rs. induction tool_calls as [|t tcs IH]; intros rs; simpl.
  - intros [= <-]. repeat split; constructor.
  - destruct (process_tool_call (name t) (input t)) as [c|e] eqn:Hc; simpl;
      [|discriminate].
    destruct (build_tool_results tcs) as [rs'|e] eqn:Hr; simpl; [|discriminate].
    intros [= <-]. destruct (IH rs' eq_refl) as (Hl & Hi & Hf). simpl.
    repeat split; [now rewrite Hl | now rewrite Hi | now constructor].
Qed.

Lemma build_tool_results_unregistered (tool_calls : list tool_use) :
  Forall (fun t => name t <> "fetch_user_data" /\
                   name t <> "fetch_conversation_analytics") tool_calls ->
  build_tool_results tool_calls =
  Ok (map (fun t => {| tool_use_id := id t; result_content := unknown_tool_payload |})
        tool_calls).
Proof.
  induction 1 as [|t tcs [H1 H2] _ IH]; simpl; [reflexivity |].
  now rewrite (process_tool_call_unregistered _ _ H1 H2), IH.
Qed.

Lemma tool_calls_of_requests (blocks : list block) :
  tool_calls_of blocks = requests_of blocks.
Proof.
  unfold tool_calls_of. induction blocks as [|b blocks IH]; [reflexivity |].
  destruct b as [t|t]; simpl; now rewrite IH.
Qed.

Lemma build_tool_results_returns (tool_calls : list tool_use) :
  Forall (fun t => exists c, process_tool_call (name t) (input t) = Ok c) tool_calls ->
  exists rs, build_tool_results tool_calls = Ok rs.
Proof.
  induction 1 as [|t tcs [c Hc] _ [rs Hrs]]; simpl; [eauto |].
  rewrite Hc, Hrs. simpl. eauto.
Qed.

Lemma build_tool_results_raises (tool_calls : list tool_use) :
  Exists tool_raises tool_calls ->
  exists e, build_tool_results tool_calls = Err e.
Proof.
  induction tool_calls as [|t tcs IH]; intros Hex.
  - inversion Hex.
  - simpl. destruct (process_tool_call (name t) (input t)) as [c|e] eqn:Hc;
      [|simpl; eauto].
    simpl. inversion Hex as [x xs [e He] | x xs Hrest]; subst.
    + congruence.
    + destruct (IH Hrest) as [e ->]. simpl. eauto.
Qed.

Lemma build_tool_results_pairs (tool_calls : list tool_use) (rs : list tool_result) :
  build_tool_results tool_calls = Ok rs ->
  Forall2
    (fun t x => tool_use_id x = id t
                /\ process_tool_call (name t) (input t) = Ok (result_content x))
    tool_calls rs.
Proof.
  revert rs. induction tool_calls as [|t tcs IH]; intros rs; simpl.
  - intros [= <-]. constructor.
  - destruct (process_tool_call (name t) (input t)) as [c|e] eqn:Hc; simpl;
      [|discriminate].
    destruct (build_tool_results tcs) as [rs'|e] eqn:Hr; simpl; [|discriminate].
    intros [= <-]. constructor; [now split | now apply IH].
Qed.

(** ** The state monad *)

Lemma final_world_bind {A B} (m : M A) (k : A -> M B) (w : world) :
  final_world (bind m k w) =
  match m w with
  | Ret a w1 => final_world (k a w1)
  | Raise _ w1 | Timeout w1 => w1
  end.
Proof. unfold bind. now destruct (m w). Qed.

Lemma set_sent_same (w : world) : set_sent (sent w) w = w.
Proof. now destruct w. Qed.

Lemma bind_lift_ok {A B} (a : A) (k : A -> M B) (w : world) :
  bind (lift (Ok a)) k w = k a w.
Proof. reflexivity. Qed.

Lemma bind_lift_err {A B} (e : exn) (k : A -> M B) (w : world) :
  bind (lift (Err e)) k w = Raise e w.
Proof. reflexivity. Qed.

Lemma send_message_spec (sid : string) (msg : json) (w : world) :
  send_message sid msg w = Ret tt (set_sent (sent w ++ delivered w sid [msg]) w).
Proof.
  unfold send_message, delivered.
  destruct (active_connections w !! sid); simpl; [reflexivity |].
  now rewrite app_nil_r, set_sent_same.
Qed.

Lemma bind_send_message {B} (sid : string) (msg : json) (k : unit -> M B) (w : world) :
  bind (send_message sid msg) k w =
  k tt (set_sent (sent w ++ delivered w sid [msg]) w).
Proof. unfold bind. now rewrite send_message_spec. Qed.

#[local] Instance extends_preorder : PreOrder extends.
Proof.
  split.
  - intros w. now split.
  - intros w1 w2 w3 [] []. split; try congruence; etrans; eauto.
Qed.

Lemma extends_set_sent (w : world) (fs : list (websocket * json)) :
  extends w (set_sent (sent w ++ fs) w).
Proof. split; simpl; try reflexivity. now apply prefix_app_r. Qed.

Lemma extends_set_calls (w : world) (cs : list (list message * result response)) :
  extends w (set_calls (calls w ++ cs) w).
Proof. split; simpl; try reflexivity. now apply prefix_app_r. Qed.

(** ** Notifications *)

Lemma delivered_app (w : world) (sid : string) (a b : list json) :
  delivered w sid (a ++ b) = delivered w sid a ++ delivered w sid b.
Proof.
  unfold delivered. destruct (active_connections w !! sid); [|reflexivity].
  apply map_app.
Qed.

Lemma delivered_set_sent (w : world) (s : list (websocket * json)) (sid : string)
    (msgs : list json) :
  delivered (set_sent s w) sid msgs = delivered w sid msgs.
Proof. reflexivity. Qed.

Lemma notify_tool_calls_ok (sid : string) (tool_calls : list tool_use) (w : world) :
  Forall (fun t => exists c, process_tool_call (name t) (input t) = Ok c) tool_calls ->
  notify_tool_calls sid tool_calls w =
  Ret tt (set_sent (sent w ++ delivered w sid (tool_frames tool_calls)) w).
Proof.
  intros H. revert w. induction H as [|t tcs [c Hc] _ IH]; intros w; simpl.
  - unfold ret, delivered. destruct (active_connections w !! sid); simpl;
      now rewrite app_nil_r, set_sent_same.
  - rewrite Hc, bind_lift_ok, bind_send_message, IH. simpl.
    rewrite delivered_set_sent, <- app_assoc, <- delivered_app. reflexivity.
Qed.

Lemma notify_tool_calls_outcome (sid : string) (tool_calls : list tool_use) (w : world) :
  (exists fs, notify_tool_calls sid tool_calls w = Ret tt (set_sent (sent w ++ fs) w) /\
     Forall (fun t => exists c, process_tool_call (name t) (input t) = Ok c) tool_calls)
  \/ (exists e fs, notify_tool_calls sid tool_calls w = Raise e (set_sent (sent w ++ fs) w)).
Proof.
  revert w. induction tool_calls as [|t tcs IH]; intros w; simpl.
  - left. exists []. rewrite app_nil_r, set_sent_same. now split.
  - destruct (process_tool_call (name t) (input t)) as [c|e] eqn:Hc.
    + rewrite bind_lift_ok, bind_send_message.
      destruct (IH (set_sent (sent w ++ delivered w sid [tool_use_frame (name t)]) w))
        as [(fs & -> & Hall) | (e & fs & ->)]; simpl.
      * left. eexists. rewrite <- app_assoc. split; [reflexivity |].
        constructor; eauto.
      * right. do 2 eexists. rewrite <- app_assoc. reflexivity.
    + right. exists e, []. rewrite bind_lift_err.
      now rewrite app_nil_r, set_sent_same.
Qed.

(** ** One round of the loop *)

Section Loop.

Variable create : nat -> list message -> result response.

Lemma read_list_spec (l : loc) (w : world) :
  read_list l w = Ret (default [] (heap w !! l)) w.
Proof. unfold read_list. now destruct (heap w !! l). Qed.

Lemma bind_read_list {B} (l : loc) (k : list message -> M B) (w : world) :
  bind (read_list l) k w = k (default [] (heap w !! l)) w.
Proof. unfold bind. now rewrite read_list_spec. Qed.

Lemma bind_messages_create {B} (ms : list message) (k : response -> M B) (w : world) :
  bind (messages_create create ms) k w =
  let w1 := set_calls (calls w ++ [(ms, create (length (calls w)) ms)]) w in
  match create (length (calls w)) ms with
  | Ok r => k r w1
  | Err e => Raise e w1
  end.
Proof. unfold bind, messages_create. now destruct (create _ _). Qed.

(** A round whose tools all return: the client is told of each, and the next
    call is given the caller's messages, the assistant turn and one carrier
    turn. *)
Lemma tool_round_ok (sid : string) (l : loc) (r : response) (w : world)
    (rs : list tool_result) :
  build_tool_results (tool_calls_of (response_content r)) = Ok rs ->
  tool_round sid l r w =
  Ret (default [] (heap w !! l) ++ [assistant_request_turn r; carrier_turn rs])
    (set_sent
       (sent w ++ delivered w sid (tool_frames (tool_calls_of (response_content r))))
       w).
Proof.
  intros Hrs. unfold tool_round.
  assert (Hall : Forall (fun t => exists c, process_tool_call (name t) (input t) = Ok c)
                   (tool_calls_of (response_content r))).
  { destruct (build_tool_results_spec _ _ Hrs) as (_ & _ & Hf).
    clear Hrs. induction Hf; constructor; eauto. }
  unfold bind at 1. rewrite (notify_tool_calls_ok _ _ _ Hall).
  rewrite bind_read_list, Hrs, bind_lift_ok. simpl.
  unfold ret. now rewrite <- app_assoc.
Qed.

(** Whatever a round does, it returns only in the way of [tool_round_ok], and
    otherwise raises having sent some frames. *)
Lemma tool_round_outcome (sid : string) (l : loc) (r : response) (w : world) :
  (exists rs, build_tool_results (tool_calls_of (response_content r)) = Ok rs)
  \/ (exists e fs, tool_round sid l r w = Raise e (set_sent (sent w ++ fs) w)).
Proof.
  destruct (build_tool_results (tool_calls_of (response_content r))) as [rs|e] eqn:Hrs;
    [left; eauto | right].
  unfold tool_round. unfold bind at 1.
  destruct (notify_tool_calls_outcome sid (tool_calls_of (response_content r)) w)
    as [(fs & -> & _) | (e' & fs & ->)].
  - rewrite bind_read_list, Hrs, bind_lift_err. eauto.
  - eauto.
Qed.

(** ** The loop never touches the store *)

Lemma tool_loop_extends (fuel : nat) (sid : string) (l : loc) (r : response)
    (text : string) (w : world) :
  extends w (final_world (tool_loop create fuel sid l r text w)).
Proof.
  revert r text w. induction fuel as [|fuel IH]; intros r text w; simpl;
    destruct (String.eqb (stop_reason r) "tool_use"); try reflexivity.
  rewrite final_world_bind.
  destruct (tool_round_outcome sid l r w) as [[rs Hrs] | (e & fs & ->)].
  - rewrite (tool_round_ok _ _ _ _ _ Hrs).
    etrans; [apply extends_set_sent |].
    rewrite bind_messages_create. cbv zeta.
    match goal with |- context [create ?n ?m] => destruct (create n m) end.
    + etrans; [apply extends_set_calls | apply IH].
    + apply extends_set_calls.
  - apply extends_set_sent.
Qed.

Lemma stream_llm_response_extends (fuel : nat) (sid : string) (l : loc) (w : world) :
  extends w (final_world (stream_llm_response create fuel sid l w)).
Proof.
  unfold stream_llm_response. rewrite bind_read_list, bind_messages_create.
  cbv zeta. destruct (create _ _).
  - etrans; [apply extends_set_calls | apply tool_loop_extends].
  - apply extends_set_calls.
Qed.

(** ** Unfolding the loop *)

Lemma tool_loop_step (fuel : nat) (sid : string) (l : loc) (r : response)
    (text : string) (w : world) (rs : list tool_result) :
  stop_reason r = "tool_use" ->
  build_tool_results (tool_calls_of (response_content r)) = Ok rs ->
  tool_loop create (S fuel) sid l r text w =
  bind
    (messages_create create
       (default [] (heap w !! l) ++ [assistant_request_turn r; carrier_turn rs]))
    (fun r' => tool_loop create fuel sid l r' (add_texts text (response_content r)))
    (set_sent
       (sent w ++ delivered w sid (tool_frames (tool_calls_of (response_content r))))
       w).
Proof.
  intros Hstop Hrs. simpl. rewrite Hstop. simpl.
  unfold bind at 1. now rewrite (tool_round_ok _ _ _ _ _ Hrs).
Qed.

Lemma tool_loop_final (fuel : nat) (sid : string) (l : loc) (r : response)
    (text : string) (w : world) :
  stop_reason r <> "tool_use" ->
  tool_loop create fuel sid l r text w = Ret (add_texts text (response_content r)) w.
Proof.
  intros Hstop. apply String.eqb_neq in Hstop.
  destruct fuel; simpl; now rewrite Hstop.
Qed.

Lemma tool_loop_tool_failure (fuel : nat) (sid : string) (l : loc) (r : response)
    (text : string) (w : world) (e : exn) :
  stop_reason r = "tool_use" ->
  build_tool_results (tool_calls_of (response_content r)) = Err e ->
  calls (final_world (tool_loop create (S fuel) sid l r text w)) = calls w.
Proof.
  intros Hstop Hrs. simpl. rewrite Hstop. simpl. rewrite final_world_bind.
  destruct (tool_round_outcome sid l r w) as [[rs Hrs'] | (e' & fs & ->)].
  - congruence.
  - reflexivity.
Qed.

(** The call that follows a tool round is the next entry of the call log. *)
Lemma tool_loop_next_call (fuel : nat) (sid : string) (l : loc) (r : response)
    (text : string) (w : world) (rs : list tool_result) :
  stop_reason r = "tool_use" ->
  build_tool_results (tool_calls_of (response_content r)) = Ok rs ->
  let ms := default [] (heap w !! l) ++ [assistant_request_turn r; carrier_turn rs] in
  calls (final_world (tool_loop create (S fuel) sid l r text w)) !! length (calls w)
  = Some (ms, create (length (calls w)) ms).
Proof.
  intros Hstop Hrs ms. rewrite (tool_loop_step _ _ _ _ _ _ _ Hstop Hrs).
  fold ms. rewrite bind_messages_create. cbv zeta. simpl.
  set (w1 := set_calls _ _).
  assert (Hw1 : calls w1 !! length (calls w) = Some (ms, create (length (calls w)) ms)).
  { subst w1. simpl. rewrite lookup_app_r by lia.
    now replace (length (calls w) - length (calls w)) with 0 by lia. }
  destruct (create (length (calls w)) ms) as [r'|e]; [|exact Hw1].
  eapply prefix_lookup_Some; [exact Hw1 |].
  apply ext_calls, tool_loop_extends.
Qed.

End Loop.

(** ** Tool resolution *)

(** C10: a registered tool whose input lacks the declared required parameter
    does not fail; the parameter defaults to the string "unknown", and the
    returned string is the serialized result of the tool applied to
    "unknown". *)
Theorem missing_parameter_defaults_to_unknown (input : list (string * json)) :
  (dict_get input "user_id" = None ->
   process_tool_call "fetch_user_data" input
   = result_bind (fetch_user_data (JStr "unknown")) (fun r => Ok (json_dumps r))
   /\ process_tool_call "fetch_user_data" input = Ok unknown_user_record)
  /\
  (dict_get input "session_id" = None ->
   process_tool_call "fetch_conversation_analytics" input
   = Ok (json_dumps (fetch_conversation_analytics (JStr "unknown")))
   /\ process_tool_call "fetch_conversation_analytics" input
      = Ok unknown_analytics_record).
Proof.
  split; intros Hmiss; unfold process_tool_call, dict_get_default; rewrite Hmiss;
    simpl; split; reflexivity.
Qed.

Lemma missing_parameter_defaults_to_unknown_witness :
  process_tool_call "fetch_user_data" [("verbose", JBool true)]
  = Ok unknown_user_record
  /\ process_tool_call "fetch_conversation_analytics" []
     = Ok unknown_analytics_record.
Proof.
  split.
  - apply (proj1 (missing_parameter_defaults_to_unknown [("verbose", JBool true)])).
    reflexivity.
  - apply (proj2 (missing_parameter_defaults_to_unknown [])). reflexivity.
Defined.

(** C4, as the code has it: [process_tool_call] raises on a numeric
    [user_id], so it is not total over all input payloads. *)
Lemma process_tool_call_raises_on_number :
  process_tool_call "fetch_user_data" [("user_id", JInt 123)]
  = Err (TypeError "'int' object is not subscriptable")
  /\ ~ (forall name input, exists s, process_tool_call name input = Ok s).
Proof.
  split; [reflexivity |].
  intros H. destruct (H "fetch_user_data" [("user_id", JInt 123)]) as [s Hs].
  discriminate Hs.
Qed.

(** C4, amended: [process_tool_call] returns a serialized string for every
    tool name and every input payload in which the value given to
    [fetch_user_data] under [user_id] is absent, a string or a list, and it
    raises for every other such value. For every name that is not registered
    it returns the payload [{"error": "Unknown tool"}] whatever the input.
    In a needs-tool response all of whose requests return, unregistered ones
    among them, the loop goes on to the next model call, and the carrier of
    that call answers each unregistered request, under its id, with that
    payload; when a request of the response raises, the loop raises and
    makes no further model call. *)
Theorem process_tool_call_total_on_sliceable :
  (forall tool_name input,
     (tool_name = "fetch_user_data" ->
      sliceable (dict_get_default input "user_id" (JStr "unknown")) = true) ->
     exists s, process_tool_call tool_name input = Ok s)
  /\
  (forall input,
     sliceable (dict_get_default input "user_id" (JStr "unknown")) = false ->
     exists e, process_tool_call "fetch_user_data" input = Err e)
  /\
  (forall tool_name input,
     unregistered tool_name ->
     process_tool_call tool_name input = Ok unknown_tool_payload)
  /\
  (forall create fuel sid l r text w ms,
     stop_reason r = "tool_use" ->
     heap w !! l = Some ms ->
     Forall tool_returns (requests_of (response_content r)) ->
     exists rs answer,
       calls (final_world (tool_loop create (S fuel) sid l r text w))
         !! length (calls w)
       = Some (ms ++ [assistant_request_turn r; carrier_turn rs], answer)
       /\ Forall2
            (fun t x =>
               tool_use_id x = id t
               /\ (unregistered (name t) -> result_content x = unknown_tool_payload))
            (requests_of (response_content r)) rs)
  /\
  (forall create fuel sid l r text w,
     stop_reason r = "tool_use" ->
     Exists tool_raises (requests_of (response_content r)) ->
     (exists e w', tool_loop create (S fuel) sid l r text w = Raise e w')
     /\ calls (final_world (tool_loop create (S fuel) sid l r text w)) = calls w).
Proof.
  split; [exact process_tool_call_returns |].
  split.
  { intros input Hs. unfold process_tool_call. simpl.
    destruct (dict_get_default input "user_id" (JStr "unknown"));
      try discriminate Hs; simpl; eauto. }
  split.
  { intros tool_name input [H1 H2]. now apply process_tool_call_unregistered. }
  split.
  - intros create fuel sid l r text w ms Hstop Hl Hall.
    rewrite <- tool_calls_of_requests in *.
    destruct (build_tool_results_returns _ Hall) as [rs Hrs].
    pose proof (tool_loop_next_call create fuel sid l r text w rs Hstop Hrs) as H.
    cbv zeta in H. rewrite Hl in H. simpl (default _ _) in H.
    exists rs. eexists. split; [exact H |].
    pose proof (build_tool_results_pairs _ _ Hrs) as Hp.
    clear -Hp. induction Hp as [|t x tcs rs' [Hid Hc] _ IH]; constructor; [|exact IH].
    split; [exact Hid |]. intros [H1 H2].
    rewrite (process_tool_call_unregistered _ _ H1 H2) in Hc. congruence.
  - intros create fuel sid l r text w Hstop Hex.
    rewrite <- tool_calls_of_requests in Hex.
    destruct (build_tool_results_raises _ Hex) as [e Hrs].
    split; [|exact (tool_loop_tool_failure create fuel sid l r text w e Hstop Hrs)].
    destruct (tool_round_outcome sid l r w) as [[rs Hrs'] | (e' & fs & Hraise)];
      [congruence |].
    exists e'. eexists. simpl. apply String.eqb_eq in Hstop. rewrite Hstop.
    unfold bind at 1. now rewrite Hraise.
Qed.

Lemma process_tool_call_total_on_sliceable_witness :
  (exists s, process_tool_call "fetch_user_data" [("user_id", JStr "abc123")] = Ok s)
  /\ (exists e, process_tool_call "fetch_user_data" [("user_id", JBool true)] = Err e)
  /\ process_tool_call "send_email" [("to", JStr "a@b.c")] = Ok unknown_tool_payload
  /\ (exists rs answer,
        calls (final_world
                 (tool_loop always_tool 1 "s" 0
                    (needs_tool [ lookup_user "tu_1" "abc123";
                                  ToolUseBlock {| id := "tu_9"; name := "send_email";
                                                  input := [] |} ])
                    "" pending_question))
          !! 0
        = Some ([ user_turn (JStr "What is my account status?");
                  assistant_request_turn
                    (needs_tool [ lookup_user "tu_1" "abc123";
                                  ToolUseBlock {| id := "tu_9"; name := "send_email";
                                                  input := [] |} ]);
                  carrier_turn rs ],
                answer)
        /\ map tool_use_id rs = ["tu_1"; "tu_9"]
        /\ (exists first, rs = [first; {| tool_use_id := "tu_9";
                                           result_content := unknown_tool_payload |}]))
  /\ calls (final_world
              (tool_loop always_tool 1 "s" 0
                 (needs_tool [ lookup_user "tu_1" "abc123"; ToolUseBlock numeric_user ])
                 "" pending_question))
     = calls pending_question.
Proof.
  destruct process_tool_call_total_on_sliceable as (Ha & Hraise & Hb & Hc & Hd).
  split; [|split; [|split; [|split]]].
  - apply Ha. intros _. reflexivity.
  - apply Hraise. reflexivity.
  - apply Hb. split; discriminate.
  - destruct (Hc always_tool 0 "s" 0
                (needs_tool [ lookup_user "tu_1" "abc123";
                              ToolUseBlock {| id := "tu_9"; name := "send_email";
                                              input := [] |} ])
                "" pending_question
                [user_turn (JStr "What is my account status?")]
                eq_refl eq_refl)
      as (rs & answer & Hcall & Hpairs).
    { repeat (constructor; [eexists; reflexivity |]). constructor. }
    exists rs, answer. split; [exact Hcall |].
    inversion Hpairs as [|t1 x1 ts1 rs1 [Hid1 _] Hrest]; subst.
    inversion Hrest as [|t2 x2 ts2 rs2 [Hid2 Hpay] Hnil]; subst.
    inversion Hnil; subst. simpl in *.
    split; [now rewrite Hid1, Hid2 |].
    exists x1. f_equal. f_equal. destruct x2 as [i c]. simpl in *.
    rewrite Hid2, Hpay; [reflexivity | split; discriminate].
  - apply (Hd always_tool 0 "s" 0
             (needs_tool [ lookup_user "tu_1" "abc123"; ToolUseBlock numeric_user ])
             "" pending_question eq_refl).
    apply Exists_cons_tl, Exists_cons_hd. eexists. reflexivity.
Defined.

(** ** The shape of a tool round *)




(** ** The returned text *)

Lemma tool_loop_text (create : nat -> list message -> result response)
    (sid : string) (l : loc) (fuel : nat) :
  forall (r : response) (text : string) (w : world) (text' : string) (w' : world),
    tool_loop create fuel sid l r text w = Ret text' w' ->
    exists new,
      calls w' = calls w ++ new /\
      text' = text +:+ concat_strings (text_fragments (response_content r))
              +:+ concat_strings
                    (flat_map (fun x => text_fragments (response_content x))
                       (observed_responses new)).
Proof.
  induction fuel as [|fuel IH]; intros r text w text' w' Hrun.
  - simpl in Hrun. destruct (String.eqb (stop_reason r) "tool_use"); [discriminate |].
    injection Hrun as <- <-. exists []. rewrite app_nil_r. split; [reflexivity |].
    now rewrite add_texts_fragments, string_app_nil_r.
  - destruct (String.eqb_spec (stop_reason r) "tool_use") as [Hstop | Hstop].
    + destruct (tool_round_outcome sid l r w) as [[rs Hrs] | (e & fs & Hraise)].
      * rewrite (tool_loop_step _ _ _ _ _ _ _ _ Hstop Hrs) in Hrun.
        rewrite bind_messages_create in Hrun. cbv zeta in Hrun.
        destruct (create _ _) as [r'|e] eqn:Hcreate; [|discriminate].
        destruct (IH _ _ _ _ _ Hrun) as (new & Hcalls & Htext).
        simpl in Hcalls. rewrite <- app_assoc in Hcalls.
        eexists. split; [exact Hcalls |].
        rewrite Htext, add_texts_fragments.
        change (observed_responses ([(?m, Ok r')] ++ new))
          with (r' :: observed_responses new).
        cbn [flat_map]. rewrite concat_strings_app, !string_app_assoc. reflexivity.
      * simpl in Hrun. apply String.eqb_eq in Hstop. rewrite Hstop in Hrun.
        unfold bind at 1 in Hrun. rewrite Hraise in Hrun. discriminate.
    + rewrite (tool_loop_final _ _ _ _ _ _ _ Hstop) in Hrun.
      injection Hrun as <- <-. exists []. rewrite app_nil_r. split; [reflexivity |].
      now rewrite add_texts_fragments, string_app_nil_r.
Qed.

(** C3: the text a completed run returns is the concatenation, in response
    order and then block order, of the text fragments of every response the
    service gave during the run, those of needs-tool responses included; a
    service giving fragment T1 with a tool request and then a final fragment
    T2 makes the run return T1 followed by T2. *)
Theorem returned_text_is_concatenation :
  (forall (create : nat -> list message -> result response) (fuel : nat)
          (sid : string) (l : loc) (w : world) (text : string) (w' : world),
     stream_llm_response create fuel sid l w = Ret text w' ->
     text = concat_strings
              (flat_map (fun r => text_fragments (response_content r))
                 (observed_responses (calls_since (length (calls w)) w'))))
  /\
  (forall T1 T2 : string,
     exists w',
       stream_llm_response (fragments_T1_T2 T1 T2) 1 "s" 0 pending_question
       = Ret (T1 +:+ T2) w').
Proof.
  split.
  - intros create fuel sid l w text w' Hrun.
    unfold stream_llm_response in Hrun.
    rewrite bind_read_list, bind_messages_create in Hrun. cbv zeta in Hrun.
    destruct (create _ _) as [r|e] eqn:Hcreate; [|discriminate].
    destruct (tool_loop_text _ _ _ _ _ _ _ _ _ Hrun) as (new & Hcalls & ->).
    simpl in Hcalls. rewrite <- app_assoc in Hcalls.
    unfold calls_since. rewrite Hcalls, drop_app_length.
    change (observed_responses ([(?m, Ok r)] ++ new))
      with (r :: observed_responses new).
    cbn [flat_map]. now rewrite concat_strings_app.
  - intros T1 T2.
    exists (final_world
              (stream_llm_response (fragments_T1_T2 T1 T2) 1 "s" 0 pending_question)).
    vm_compute. reflexivity.
Qed.

Lemma returned_text_is_concatenation_witness :
  "Checking. Your account is active."
  = concat_strings
      (flat_map (fun r => text_fragments (response_content r))
         (observed_responses
            (calls_since 0
               (final_world
                  (stream_llm_response
                     (fragments_T1_T2 "Checking. " "Your account is active.")
                     1 "s" 0 pending_question))))).
Proof.
  apply (proj1 returned_text_is_concatenation
           (fragments_T1_T2 "Checking. " "Your account is active.")
           1 "s" 0 pending_question "Checking. Your account is active."
           (final_world
              (stream_llm_response
                 (fragments_T1_T2 "Checking. " "Your account is active.")
                 1 "s" 0 pending_question))).
  reflexivity.
Defined.

(** ** What the model service is shown *)

(** C1, as the code runs: with two tool rounds, the third model call is given
    the caller's messages and the two turns of round two only; the assistant
    turn and the carrier turn of round one are not in its message list. *)
Lemma third_call_forgets_first_round :
  let w := final_world (stream_llm_response two_rounds 5 "s" 0 pending_question) in
  let asked := user_turn (JStr "What is my account status?") in
  let request1 :=
    assistant_request_turn
      (needs_tool [TextBlock "One. "; lookup_user "tu_1" "abc123"]) in
  let request2 :=
    assistant_request_turn
      (needs_tool [TextBlock "Two. "; lookup_user "tu_2" "xyz789"]) in
  exists results1 results2,
    map fst (calls w)
    = [ [asked];
        [asked; request1; carrier_turn results1];
        [asked; request2; carrier_turn results2] ]
    /\ map tool_use_id results1 = ["tu_1"]
    /\ map tool_use_id results2 = ["tu_2"]
    /\ ~ In request1 [asked; request2; carrier_turn results2]
    /\ ~ In (carrier_turn results1) [asked; request2; carrier_turn results2].
Proof.
  cbv zeta. do 2 eexists.
  split; [vm_compute; reflexivity |].
  split; [reflexivity |]. split; [reflexivity |].
  split; simpl; intros H; repeat destruct H as [H | H]; try discriminate H; exact H.
Qed.

(** ** Termination *)

Lemma always_tool_loops (sid : string) (l : loc) (fuel : nat) :
  forall (text : string) (w : world),
    exists w',
      tool_loop always_tool fuel sid l (needs_tool []) text w = Timeout w'
      /\ length (calls w') = length (calls w) + fuel.
Proof.
  induction fuel as [|fuel IH]; intros text w.
  - exists w. split; [reflexivity | lia].
  - rewrite (tool_loop_step always_tool fuel sid l (needs_tool []) text w []
               eq_refl eq_refl).
    rewrite bind_messages_create. cbv zeta. unfold always_tool at 2.
    match goal with |- context [tool_loop _ _ _ _ _ ?t ?w1] =>
      destruct (IH t w1) as (w' & Hrun & Hlen) end.
    exists w'. split; [exact Hrun |].
    rewrite Hlen. simpl. rewrite length_app. simpl. lia.
Qed.

Lemma always_tool_never_returns (sid : string) (l : loc) (fuel : nat) (w : world) :
  exists w',
    stream_llm_response always_tool fuel sid l w = Timeout w'
    /\ length (calls w') = length (calls w) + S fuel.
Proof.
  unfold stream_llm_response. rewrite bind_read_list, bind_messages_create.
  cbv zeta. unfold always_tool at 2.
  match goal with |- context [tool_loop _ _ _ _ _ ?t ?w1] =>
    destruct (always_tool_loops sid l fuel t w1) as (w' & Hrun & Hlen) end.
  exists w'. split; [exact Hrun |].
  rewrite Hlen. simpl. rewrite length_app. simpl. lia.
Qed.

(** C5, as the code runs: against a service that asks for a tool round on
    every call, no number of iterations lets the run return, and none lets it
    fail: the loop has no bound and no limit failure. *)
Lemma loop_runs_forever_on_always_tool :
  ~ (exists fuel text w',
       stream_llm_response always_tool fuel "s" 0 pending_question = Ret text w')
  /\ ~ (exists fuel e w',
          stream_llm_response always_tool fuel "s" 0 pending_question = Raise e w').
Proof.
  split.
  - intros (fuel & text & w' & H).
    destruct (always_tool_never_returns "s" 0 fuel pending_question) as (w1 & H1 & _).
    congruence.
  - intros (fuel & e & w' & H).
    destruct (always_tool_never_returns "s" 0 fuel pending_question) as (w1 & H1 & _).
    congruence.
Qed.

Section Rounds.

Variable create : nat -> list message -> result response.
Variables (sid : string) (l : loc) (first n : nat).
Hypothesis Hasks : asks_for_tools create first n.

Lemma tool_loop_one_more_round (fuel j : nat) (r : response) (text : string)
    (w : world) :
  length (calls w) = first + j + 1 ->
  stop_reason r = "tool_use" ->
  Forall tool_returns (requests_of (response_content r)) ->
  exists ms2 w2,
    length (calls w2) = first + S j + 1
    /\ tool_loop create (S fuel) sid l r text w
       = match create (first + S j) ms2 with
         | Ok r' =>
             tool_loop create fuel sid l r' (add_texts text (response_content r)) w2
         | Err e => Raise e w2
         end.
Proof.
  intros Hlen Hstop Hall. rewrite <- tool_calls_of_requests in Hall.
  destruct (build_tool_results_returns _ Hall) as [rs Hrs].
  rewrite (tool_loop_step _ _ _ _ _ _ _ _ Hstop Hrs), bind_messages_create.
  cbv zeta. change (calls (set_sent ?s w)) with (calls w).
  rewrite Hlen. replace (first + j + 1) with (first + S j) by lia.
  do 2 eexists. split; [|reflexivity].
  simpl. rewrite length_app. simpl. lia.
Qed.

Lemma tool_loop_still_running (fuel : nat) :
  forall (j : nat) (r : response) (text : string) (w : world),
    j + fuel < n ->
    length (calls w) = first + j + 1 ->
    stop_reason r = "tool_use" ->
    Forall tool_returns (requests_of (response_content r)) ->
    exists w',
      tool_loop create fuel sid l r text w = Timeout w'
      /\ length (calls w') = first + j + fuel + 1.
Proof.
  induction fuel as [|fuel IH]; intros j r text w Hj Hlen Hstop Hall.
  - exists w. simpl. apply String.eqb_eq in Hstop. rewrite Hstop.
    split; [reflexivity | lia].
  - destruct (tool_loop_one_more_round fuel j r text w Hlen Hstop Hall)
      as (ms2 & w2 & Hlen2 & ->).
    destruct (Hasks (S j) ms2 ltac:(lia)) as (r' & -> & Hstop' & Hall').
    destruct (IH (S j) r' (add_texts text (response_content r)) w2
                ltac:(lia) Hlen2 Hstop' Hall') as (w' & Hrun & Hlen').
    exists w'. split; [exact Hrun | lia].
Qed.

Hypothesis Hfinal : answers_for_good create (first + n).

Lemma tool_loop_returns_after (fuel : nat) :
  forall (j : nat) (r : response) (text : string) (w : world),
    j <= n ->
    n - j <= fuel ->
    length (calls w) = first + j + 1 ->
    (j < n -> stop_reason r = "tool_use"
              /\ Forall tool_returns (requests_of (response_content r))) ->
    (j = n -> stop_reason r <> "tool_use") ->
    exists text' w',
      tool_loop create fuel sid l r text w = Ret text' w'
      /\ length (calls w') = first + n + 1.
Proof.
  induction fuel as [|fuel IH]; intros j r text w Hj Hfuel Hlen Hmore Hlast.
  - assert (j = n) as -> by lia.
    rewrite (tool_loop_final _ _ _ _ _ _ _ (Hlast eq_refl)). eauto.
  - destruct (decide (j = n)) as [-> | Hne].
    + rewrite (tool_loop_final _ _ _ _ _ _ _ (Hlast eq_refl)). eauto.
    + destruct (Hmore ltac:(lia)) as [Hstop Hall].
      destruct (tool_loop_one_more_round fuel j r text w Hlen Hstop Hall)
        as (ms2 & w2 & Hlen2 & ->).
      destruct (decide (S j = n)) as [Hn | Hn].
      * destruct (Hfinal ms2) as (r' & Hr' & Hstop'). rewrite <- Hn in Hr'.
        rewrite Hr'.
        apply (IH (S j)); [lia | lia | exact Hlen2 | intros; lia |].
        intros _; exact Hstop'.
      * destruct (Hasks (S j) ms2 ltac:(lia)) as (r' & -> & Hstop' & Hall').
        apply (IH (S j)); [lia | lia | exact Hlen2 | | intros; lia].
        intros _; now split.
Qed.

End Rounds.

(** C5, amended: the orchestrator imposes no maximum number of model
    round-trips: the loop goes on for as long as the service answers
    needs-tool and the requested tools return. For every n, against a service
    whose next n answers are such responses and whose answer after them asks
    for no tool round, the run makes n + 1 model calls and returns normally;
    against a service all of whose answers are such responses the run is
    still looping after any number of iterations, and no failure is raised. *)
Theorem no_round_trip_cap
    (create : nat -> list message -> result response) (sid : string) (l : loc)
    (w : world) :
  (forall n,
     asks_for_tools create (length (calls w)) n ->
     answers_for_good create (length (calls w) + n) ->
     forall fuel,
       n <= fuel ->
       exists text w',
         stream_llm_response create fuel sid l w = Ret text w'
         /\ length (calls w') = length (calls w) + n + 1)
  /\
  ((forall n, asks_for_tools create (length (calls w)) n) ->
   forall fuel,
     exists w',
       stream_llm_response create fuel sid l w = Timeout w'
       /\ length (calls w') = length (calls w) + fuel + 1).
Proof.
  split.
  - intros n Hasks Hfinal fuel Hfuel. unfold stream_llm_response.
    rewrite bind_read_list, bind_messages_create. cbv zeta.
    set (ms := default [] (heap w !! l)). set (w1 := set_calls _ w).
    assert (Hlen : length (calls w1) = length (calls w) + 0 + 1).
    { subst w1. simpl. rewrite length_app. simpl. lia. }
    destruct (decide (n = 0)) as [-> | Hn].
    + destruct (Hfinal ms) as (r & Hr & Hstop). rewrite Nat.add_0_r in Hr.
      rewrite Hr.
      apply (tool_loop_returns_after create sid l (length (calls w)) 0
               Hasks Hfinal fuel 0);
        [lia | lia | exact Hlen | intros; lia | intros _; exact Hstop].
    + destruct (Hasks 0 ms ltac:(lia)) as (r & Hr & Hstop & Hall).
      rewrite Nat.add_0_r in Hr. rewrite Hr.
      apply (tool_loop_returns_after create sid l (length (calls w)) n
               Hasks Hfinal fuel 0);
        [lia | lia | exact Hlen | intros _; now split | intros; lia].
  - intros Hasks fuel. unfold stream_llm_response.
    rewrite bind_read_list, bind_messages_create. cbv zeta.
    set (ms := default [] (heap w !! l)). set (w1 := set_calls _ w).
    assert (Hlen : length (calls w1) = length (calls w) + 0 + 1).
    { subst w1. simpl. rewrite length_app. simpl. lia. }
    destruct (Hasks (S fuel) 0 ms ltac:(lia)) as (r & Hr & Hstop & Hall).
    rewrite Nat.add_0_r in Hr. rewrite Hr.
    destruct (tool_loop_still_running create sid l (length (calls w)) (S fuel)
                (Hasks (S fuel)) fuel 0 r "" w1 ltac:(lia) Hlen Hstop Hall)
      as (w' & Hrun & Hlen').
    exists w'. split; [exact Hrun | lia].
Qed.

Lemma no_round_trip_cap_witness :
  (exists text w',
     stream_llm_response two_rounds 5 "s" 0 pending_question = Ret text w'
     /\ length (calls w') = 0 + 2 + 1)
  /\ (exists w',
        stream_llm_response always_lookup 3 "s" 0 pending_question = Timeout w'
        /\ length (calls w') = 0 + 3 + 1).
Proof.
  split.
  - apply (proj1 (no_round_trip_cap two_rounds "s" 0 pending_question) 2).
    + intros k ms Hk. destruct k as [|[|k]]; [| |simpl in Hk; lia];
        (eexists; split; [reflexivity |]; split; [reflexivity |]);
        (constructor; [eexists; reflexivity | constructor]).
    + intros ms. eexists. split; [reflexivity | discriminate].
    + lia.
  - apply (proj2 (no_round_trip_cap always_lookup "s" 0 pending_question)).
    intros n k ms _. eexists. split; [reflexivity |]. split; [reflexivity |].
    constructor; [eexists; reflexivity | constructor].
Defined.

(** ** The endpoint, step by step *)

Lemma set_heap_same (w : world) : set_heap (heap w) w = w.
Proof. now destruct w. Qed.

Lemma set_session_states_same (w : world) :
  set_session_states (session_states w) w = w.
Proof. now destruct w. Qed.

Lemma list_append_spec (l : loc) (m : message) (w : world) :
  list_append l m w = Ret tt (set_heap (heap_append l m (heap w)) w).
Proof.
  unfold list_append, heap_append.
  destruct (heap w !! l); [reflexivity | now rewrite set_heap_same].
Qed.

Lemma update_session_state_spec (sid : string) (state : gmap string value)
    (w : world) :
  update_session_state sid state w =
  Ret tt (set_session_states (states_update sid state (session_states w)) w).
Proof.
  unfold update_session_state, states_update.
  destruct (session_states w !! sid); [reflexivity |].
  now rewrite set_session_states_same.
Qed.

Lemma heap_append_lookup (l : loc) (m : message) (h : list (list message))
    (ms : list message) :
  h !! l = Some ms -> heap_append l m h !! l = Some (ms ++ [m]).
Proof.
  intros H. unfold heap_append. rewrite H.
  apply list_lookup_insert_eq. now apply lookup_lt_Some in H.
Qed.

Lemma heap_append_grows (l : loc) (m : message) (h : list (list message)) :
  heap_grows h (heap_append l m h).
Proof.
  intros l' ms' H'. unfold heap_append.
  destruct (h !! l) as [ms|] eqn:Hl.
  - destruct (decide (l = l')) as [<- | Hne].
    + exists [m]. rewrite Hl in H'. injection H' as <-.
      apply list_lookup_insert_eq. now apply lookup_lt_Some in Hl.
    + exists []. rewrite app_nil_r, list_lookup_insert_ne by exact Hne. exact H'.
  - exists []. now rewrite app_nil_r.
Qed.

Lemma heap_alloc_grows (h : list (list message)) : heap_grows h (h ++ [[]]).
Proof.
  intros l ms H. exists []. rewrite app_nil_r.
  rewrite lookup_app_l; [exact H | now apply lookup_lt_Some in H].
Qed.

Lemma heap_grows_refl (h : list (list message)) : heap_grows h h.
Proof. intros l ms H. exists []. now rewrite app_nil_r. Qed.

Lemma heap_grows_trans (h1 h2 h3 : list (list message)) :
  heap_grows h1 h2 -> heap_grows h2 h3 -> heap_grows h1 h3.
Proof.
  intros H12 H23 l ms H.
  destruct (H12 l ms H) as [s1 H1]. destruct (H23 l _ H1) as [s2 H2].
  exists (s1 ++ s2). now rewrite app_assoc.
Qed.

Lemma states_update_same (sid : string) (v : value)
    (s : gmap string (gmap string value)) (st : gmap string value) :
  s !! sid = Some st -> st !! "messages" = Some v ->
  states_update sid {[ "messages" := v ]} s = s.
Proof.
  intros Hs Hv. unfold states_update. rewrite Hs.
  rewrite <- insert_union_singleton_l, (insert_id st) by exact Hv.
  now apply insert_id.
Qed.

Lemma states_update_kept (sid : string) (l : loc)
    (s : gmap string (gmap string value)) :
  (forall st v, s !! sid = Some st -> st !! "messages" = Some v -> v = VList l) ->
  entries_kept s (states_update sid {[ "messages" := VList l ]} s).
Proof.
  intros Hsame sid0 st0 v Hs0 Hv. unfold states_update.
  destruct (s !! sid) as [st|] eqn:Hs; [|eauto].
  destruct (decide (sid = sid0)) as [<- | Hne].
  - rewrite Hs in Hs0. injection Hs0 as <-.
    pose proof (Hsame st v eq_refl Hv) as ->.
    rewrite <- insert_union_singleton_l, (insert_id st) by exact Hv.
    rewrite insert_id by exact Hs. eauto.
  - rewrite lookup_insert_ne by exact Hne. eauto.
Qed.

Lemma transcript_lookup (w : world) (sid : string) (st : gmap string value)
    (l : loc) :
  session_states w !! sid = Some st -> st !! "messages" = Some (VList l) ->
  transcript w sid = heap w !! l.
Proof. intros Hs Hm. unfold transcript. now rewrite Hs, Hm. Qed.

Lemma grows_transcript (w w' : world) (sid : string) (t : list message) :
  grows w w' -> transcript w sid = Some t ->
  exists suffix, transcript w' sid = Some (t ++ suffix).
Proof.
  intros [Hh Hk]. unfold transcript.
  destruct (session_states w !! sid) as [st|] eqn:Hs; [|discriminate].
  destruct (st !! "messages") as [[s|l]|] eqn:Hm; try discriminate.
  intros Ht. destruct (Hk sid st (VList l) Hs Hm) as (st' & -> & ->).
  exact (Hh l t Ht).
Qed.

Lemma grows_refl (w : world) : grows w w.
Proof. split; [apply heap_grows_refl |]. intros sid st v Hs Hv. eauto. Qed.

Lemma grows_trans (w1 w2 w3 : world) : grows w1 w2 -> grows w2 w3 -> grows w1 w3.
Proof.
  intros [Hh12 Hk12] [Hh23 Hk23]. split; [eapply heap_grows_trans; eauto |].
  intros sid st v Hs Hv.
  destruct (Hk12 sid st v Hs Hv) as (st2 & Hs2 & Hv2). eauto.
Qed.

Lemma extends_grows (w w' : world) : extends w w' -> grows w w'.
Proof.
  intros []. split.
  - rewrite ext_heap0. apply heap_grows_refl.
  - rewrite ext_states0. intros sid st v Hs Hv. eauto.
Qed.

Section Endpoint.

Variable create : nat -> list message -> result response.

Lemma try_respond_outcome (fuel : nat) (sid : string) (l : loc) (w : world) :
  try_respond create fuel sid l w =
  match stream_llm_response create fuel sid l w with
  | Ret text w1 => Ret tt (responded sid l text w1)
  | Raise e w1 => Ret tt (reported sid e w1)
  | Timeout w1 => Timeout w1
  end.
Proof.
  unfold try_respond, try_except. unfold bind at 1.
  destruct (stream_llm_response create fuel sid l w) as [text w1|e w1|w1].
  - unfold bind at 1. unfold log_event at 1.
    unfold bind at 1. rewrite list_append_spec.
    unfold bind at 1. rewrite update_session_state_spec.
    rewrite send_message_spec. reflexivity.
  - now rewrite send_message_spec.
  - reflexivity.
Qed.

(** A frame received on a session as [connect] made it. *)
Lemma endpoint_receive_unfold (fuel : nat) (sid : string)
    (d : list (string * json)) (w : world) (st : gmap string value) (l : loc) :
  session_states w !! sid = Some st ->
  st !! "messages" = Some (VList l) ->
  endpoint_receive create fuel sid (JObj d) w =
  try_respond create fuel sid l
    (received sid (dict_get_default d "message" (JStr "")) l w).
Proof.
  intros Hs Hm. unfold endpoint_receive.
  change (frame_get_message (JObj d))
    with (Ok (dict_get_default d "message" (JStr ""))).
  rewrite bind_lift_ok.
  unfold bind at 1. unfold log_event at 1.
  unfold bind at 1. unfold get_session_state at 1. simpl session_states. rewrite Hs.
  unfold bind at 1. unfold state_get_messages. rewrite Hm. unfold ret at 1.
  unfold bind at 1. rewrite list_append_spec. reflexivity.
Qed.

(** The model call that opens a run. *)
Lemma stream_llm_response_first_call (fuel : nat) (sid : string) (l : loc)
    (w : world) (ms : list message) :
  heap w !! l = Some ms ->
  stream_llm_response create fuel sid l w =
  let w1 := set_calls (calls w ++ [(ms, create (length (calls w)) ms)]) w in
  match create (length (calls w)) ms with
  | Ok r => tool_loop create fuel sid l r "" w1
  | Err e => Raise e w1
  end.
Proof.
  intros Hl. unfold stream_llm_response.
  rewrite bind_read_list, Hl. simpl (default _ _).
  now rewrite bind_messages_create.
Qed.

(** The service fails on the first call of a run. *)
Lemma receive_service_error (fuel : nat) (sid : string) (d : list (string * json))
    (w : world) (ws : websocket) (st : gmap string value) (l : loc)
    (ms : list message) (e : exn) :
  let asked := user_turn (dict_get_default d "message" (JStr "")) in
  active_connections w !! sid = Some ws ->
  session_states w !! sid = Some st ->
  st !! "messages" = Some (VList l) ->
  heap w !! l = Some ms ->
  create (length (calls w)) (ms ++ [asked]) = Err e ->
  exists w',
    endpoint_receive create fuel sid (JObj d) w = Ret tt w'
    /\ sent w' = sent w ++ [(ws, error_frame (exn_str e))]
    /\ heap w' !! l = Some (ms ++ [asked])
    /\ active_connections w' = active_connections w
    /\ session_states w' = session_states w
    /\ length (calls w') = S (length (calls w)).
Proof.
  intros asked Hc Hs Hm Hl Herr.
  rewrite (endpoint_receive_unfold _ _ _ _ _ _ Hs Hm), try_respond_outcome.
  set (w1 := received _ _ _ _).
  assert (Hl1 : heap w1 !! l = Some (ms ++ [asked])).
  { subst w1. simpl. now apply heap_append_lookup. }
  rewrite (stream_llm_response_first_call _ _ _ _ _ Hl1). cbv zeta.
  change (calls w1) with (calls w). rewrite Herr.
  eexists. split; [reflexivity |].
  unfold reported, delivered. simpl. rewrite Hc. simpl.
  repeat split; try reflexivity; try assumption.
  rewrite length_app. simpl. lia.
Qed.

(** The service gives a final answer on the first call of a run. *)
Lemma receive_final_answer (fuel : nat) (sid : string) (d : list (string * json))
    (w : world) (ws : websocket) (st : gmap string value) (l : loc)
    (ms : list message) (r : response) :
  let asked := user_turn (dict_get_default d "message" (JStr "")) in
  let text := concat_strings (text_fragments (response_content r)) in
  active_connections w !! sid = Some ws ->
  session_states w !! sid = Some st ->
  st !! "messages" = Some (VList l) ->
  heap w !! l = Some ms ->
  create (length (calls w)) (ms ++ [asked]) = Ok r ->
  stop_reason r <> "tool_use" ->
  exists w',
    endpoint_receive create fuel sid (JObj d) w = Ret tt w'
    /\ sent w' = sent w ++ [(ws, response_frame text)]
    /\ heap w' !! l = Some (ms ++ [asked; assistant_text_turn text])
    /\ active_connections w' = active_connections w
    /\ session_states w' = session_states w
    /\ length (calls w') = S (length (calls w)).
Proof.
  intros asked text Hc Hs Hm Hl Hok Hstop.
  rewrite (endpoint_receive_unfold _ _ _ _ _ _ Hs Hm), try_respond_outcome.
  set (w1 := received _ _ _ _).
  assert (Hl1 : heap w1 !! l = Some (ms ++ [asked])).
  { subst w1. simpl. now apply heap_append_lookup. }
  rewrite (stream_llm_response_first_call _ _ _ _ _ Hl1). cbv zeta.
  change (calls w1) with (calls w). rewrite Hok.
  rewrite (tool_loop_final _ _ _ _ _ _ _ Hstop).
  rewrite add_texts_fragments. change ("" +:+ ?x) with x. fold text.
  eexists. split; [reflexivity |].
  unfold responded, delivered. simpl.
  rewrite (states_update_same _ _ _ _ Hs Hm), Hc. simpl.
  repeat split; try reflexivity.
  - rewrite (heap_append_lookup _ _ _ _ Hl1), <- app_assoc. reflexivity.
  - rewrite length_app. simpl. lia.
Qed.

(** One tool round with a single request whose tool returns [c]. *)
Lemma stream_one_round (fuel : nat) (sid : string) (l : loc) (w : world)
    (ms : list message) (r1 : response) (t : tool_use) (c : string) :
  heap w !! l = Some ms ->
  create (length (calls w)) ms = Ok r1 ->
  stop_reason r1 = "tool_use" ->
  response_content r1 = [ToolUseBlock t] ->
  process_tool_call (name t) (input t) = Ok c ->
  stream_llm_response create (S fuel) sid l w =
  let ms2 :=
    ms ++ [ assistant_request_turn r1;
            carrier_turn [ {| tool_use_id := id t; result_content := c |} ] ] in
  let w1 :=
    set_sent (sent w ++ delivered w sid [tool_use_frame (name t)])
      (set_calls (calls w ++ [(ms, Ok r1)]) w) in
  let w2 :=
    set_calls (calls w1 ++ [(ms2, create (S (length (calls w))) ms2)]) w1 in
  match create (S (length (calls w))) ms2 with
  | Ok r2 => tool_loop create fuel sid l r2 "" w2
  | Err e => Raise e w2
  end.
Proof.
  intros Hl Hok Hstop Hcontent Htool.
  rewrite (stream_llm_response_first_call _ _ _ _ _ Hl). cbv zeta. rewrite Hok.
  assert (Hrs : build_tool_results (tool_calls_of (response_content r1))
                = Ok [ {| tool_use_id := id t; result_content := c |} ]).
  { rewrite Hcontent. simpl. now rewrite Htool. }
  rewrite (tool_loop_step _ _ _ _ _ _ _ _ Hstop Hrs).
  rewrite bind_messages_create. cbv zeta.
  rewrite Hcontent.
  change (heap (set_calls ?c w)) with (heap w). rewrite Hl.
  change (calls (set_sent ?s (set_calls ?c w))) with c.
  rewrite length_app, Nat.add_1_r. reflexivity.
Qed.

End Endpoint.

(** ** A failing model service *)

(** C6: when the model-service call of the first round-trip raises, the
    client is sent exactly one frame, an error frame carrying the text of the
    exception; the stored transcript gains the user message and nothing else;
    the connection stays registered, and the next user message is processed
    as usual. *)
Theorem first_call_failure_reports_once
    (create : nat -> list message -> result response) (fuel : nat) (sid : string)
    (d : list (string * json)) (w : world) (ws : websocket)
    (st : gmap string value) (l : loc) (ms : list message) (e : exn) :
  let asked := user_turn (dict_get_default d "message" (JStr "")) in
  active_connections w !! sid = Some ws ->
  session_states w !! sid = Some st ->
  st !! "messages" = Some (VList l) ->
  heap w !! l = Some ms ->
  create (length (calls w)) (ms ++ [asked]) = Err e ->
  exists w',
    endpoint_receive create fuel sid (JObj d) w = Ret tt w'
    /\ sent w' = sent w ++ [(ws, error_frame (exn_str e))]
    /\ transcript w' sid = Some (ms ++ [asked])
    /\ active_connections w' !! sid = Some ws
    /\ (forall (fuel2 : nat) (d2 : list (string * json)) (r2 : response),
          let asked2 := user_turn (dict_get_default d2 "message" (JStr "")) in
          let text := concat_strings (text_fragments (response_content r2)) in
          create (S (length (calls w))) (ms ++ [asked; asked2]) = Ok r2 ->
          stop_reason r2 <> "tool_use" ->
          exists w'',
            endpoint_receive create fuel2 sid (JObj d2) w' = Ret tt w''
            /\ sent w'' = sent w' ++ [(ws, response_frame text)]
            /\ transcript w'' sid
               = Some (ms ++ [asked; asked2; assistant_text_turn text])).
Proof.
  intros asked Hc Hs Hm Hl Herr.
  destruct (receive_service_error create fuel sid d w ws st l ms e Hc Hs Hm Hl Herr)
    as (w' & Hrun & Hsent & Hl' & Hc' & Hs' & Hcalls).
  exists w'. split; [exact Hrun |]. split; [exact Hsent |].
  rewrite <- Hs' in Hs. rewrite <- Hc' in Hc.
  split; [now rewrite (transcript_lookup _ _ _ _ Hs Hm) |].
  split; [exact Hc |].
  intros fuel2 d2 r2 asked2 text Hok Hstop.
  rewrite <- Hcalls in Hok.
  replace (ms ++ [asked; asked2]) with ((ms ++ [asked]) ++ [asked2]) in Hok
    by now rewrite <- app_assoc.
  destruct (receive_final_answer create fuel2 sid d2 w' ws st l _ r2
              Hc Hs Hm Hl' Hok Hstop)
    as (w'' & Hrun2 & Hsent2 & Hl2 & _ & Hs2 & _).
  exists w''. split; [exact Hrun2 |]. split; [exact Hsent2 |].
  rewrite <- Hs2 in Hs. rewrite (transcript_lookup _ _ _ _ Hs Hm), Hl2.
  now rewrite <- app_assoc.
Qed.

Lemma first_call_failure_reports_once_witness :
  exists w',
    endpoint_receive fails_first 3 "s" question fresh_session = Ret tt w'
    /\ sent w' = sent fresh_session ++ [(7, error_frame "connection refused")]
    /\ transcript w' "s" = Some [user_turn (JStr "What is my account status?")]
    /\ active_connections w' !! "s" = Some 7.
Proof.
  destruct (first_call_failure_reports_once fails_first 3 "s"
              [("message", JStr "What is my account status?")] fresh_session 7
              (<["messages" := VList 0]>
                 (<["user_id" := VStr "user-1"]>
                    (<["start_time" := VStr "2024-01-01T00:00:00"]> ∅)))
              0 [] (ServiceError "connection refused")
              eq_refl eq_refl eq_refl eq_refl eq_refl)
    as (w' & H1 & H2 & H3 & H4 & _).
  exists w'. split; [exact H1 |]. split; [exact H2 |]. split; [exact H3 | exact H4].
Defined.

(** ** The single-tool-round scenario *)

(** C7, as the code runs: in the account-status scenario the stored
    transcript ends with two turns, the user message and the final assistant
    text, not four; and when the round after a completed tool round fails, the
    stored transcript holds the user message alone. The tool-request and
    tool-result turns are never stored. *)
Lemma tool_turns_are_not_stored :
  let asked := user_turn (JStr "What is my account status?") in
  let done := final_world (endpoint_receive account_status 5 "s" question fresh_session) in
  let failed :=
    final_world (endpoint_receive fails_in_round_two 5 "s" question fresh_session) in
  transcript done "s" = Some [asked; assistant_text_turn "Your account is active."]
  /\ ~ (exists request results answer,
          transcript done "s" = Some [asked; request; results; answer])
  /\ transcript failed "s" = Some [asked].
Proof.
  cbv zeta.
  assert (H : transcript
                (final_world
                   (endpoint_receive account_status 5 "s" question fresh_session))
                "s"
              = Some [ user_turn (JStr "What is my account status?");
                       assistant_text_turn "Your account is active." ])
    by (vm_compute; reflexivity).
  split; [exact H |]. split.
  - intros (request & results & answer & H'). rewrite H in H'. discriminate H'.
  - vm_compute. reflexivity.
Qed.

(** C7, amended: in the single-tool-round scenario (the model asks for
    fetch_user_data once, then gives a final text) the client receives one
    tool_use frame naming fetch_user_data and then one response frame with the
    final text, and the stored transcript gains two turns, the user message
    and the final assistant text; the tool-request and tool-result turns go to
    the next model call only. When the round after the tool round fails, the
    client receives the tool_use frame and then one error frame, and the
    stored transcript gains the user message alone. *)
Theorem single_tool_round_outcome
    (create : nat -> list message -> result response) (fuel : nat) (sid : string)
    (d : list (string * json)) (w : world) (ws : websocket)
    (st : gmap string value) (l : loc) (ms : list message)
    (r1 : response) (t : tool_use) (c : string) :
  let asked := user_turn (dict_get_default d "message" (JStr "")) in
  let round :=
    [ assistant_request_turn r1;
      carrier_turn [ {| tool_use_id := id t; result_content := c |} ] ] in
  active_connections w !! sid = Some ws ->
  session_states w !! sid = Some st ->
  st !! "messages" = Some (VList l) ->
  heap w !! l = Some ms ->
  create (length (calls w)) (ms ++ [asked]) = Ok r1 ->
  stop_reason r1 = "tool_use" ->
  response_content r1 = [ToolUseBlock t] ->
  name t = "fetch_user_data" ->
  process_tool_call (name t) (input t) = Ok c ->
  (forall r2 : response,
     let text := concat_strings (text_fragments (response_content r2)) in
     create (S (length (calls w))) ((ms ++ [asked]) ++ round) = Ok r2 ->
     stop_reason r2 <> "tool_use" ->
     exists w',
       endpoint_receive create (S fuel) sid (JObj d) w = Ret tt w'
       /\ sent w' = sent w ++ [ (ws, tool_use_frame "fetch_user_data");
                                (ws, response_frame text) ]
       /\ transcript w' sid = Some (ms ++ [asked; assistant_text_turn text]))
  /\
  (forall e : exn,
     create (S (length (calls w))) ((ms ++ [asked]) ++ round) = Err e ->
     exists w',
       endpoint_receive create (S fuel) sid (JObj d) w = Ret tt w'
       /\ sent w' = sent w ++ [ (ws, tool_use_frame "fetch_user_data");
                                (ws, error_frame (exn_str e)) ]
       /\ transcript w' sid = Some (ms ++ [asked])).
Proof.
  intros asked round Hc Hs Hm Hl Hok Hstop Hcontent Hname Htool.
  assert (Hstart : endpoint_receive create (S fuel) sid (JObj d) w
                   = try_respond create (S fuel) sid l
                       (received sid (dict_get_default d "message" (JStr "")) l w))
    by exact (endpoint_receive_unfold _ _ _ _ _ _ _ Hs Hm).
  set (w1 := received _ _ _ _) in Hstart.
  assert (Hl1 : heap w1 !! l = Some (ms ++ [asked])).
  { subst w1. simpl. now apply heap_append_lookup. }
  assert (Hok1 : create (length (calls w1)) (ms ++ [asked]) = Ok r1) by exact Hok.
  pose proof (stream_one_round create fuel sid l w1 _ r1 t c
                Hl1 Hok1 Hstop Hcontent Htool) as Hstream.
  cbv zeta in Hstream. change (calls w1) with (calls w) in Hstream.
  fold round in Hstream. rewrite Hname in Hstream.
  rewrite Hstart, try_respond_outcome, Hstream. clear Hstart Hstream.
  split.
  - intros r2 text Hok2 Hstop2. rewrite Hok2.
    rewrite (tool_loop_final _ _ _ _ _ _ _ Hstop2).
    rewrite add_texts_fragments. change ("" +:+ ?x) with x. fold text.
    eexists. split; [reflexivity |].
    unfold responded, delivered. simpl.
    rewrite (states_update_same _ _ _ _ Hs Hm), Hc. simpl.
    split; [now rewrite <- app_assoc |].
    unfold transcript. simpl. rewrite Hs, Hm.
    rewrite (heap_append_lookup _ _ _ _ Hl1), <- app_assoc. reflexivity.
  - intros e Herr. rewrite Herr.
    eexists. split; [reflexivity |].
    unfold reported, delivered. simpl. rewrite Hc. simpl.
    split; [now rewrite <- app_assoc |].
    unfold transcript. simpl. rewrite Hs, Hm. exact Hl1.
Qed.

Lemma single_tool_round_outcome_witness :
  exists w',
    endpoint_receive account_status 1 "s" question fresh_session = Ret tt w'
    /\ sent w' = sent fresh_session
                 ++ [ (7, tool_use_frame "fetch_user_data");
                      (7, response_frame "Your account is active.") ]
    /\ transcript w' "s"
       = Some [ user_turn (JStr "What is my account status?");
                assistant_text_turn "Your account is active." ].
Proof.
  destruct (single_tool_round_outcome account_status 0 "s"
              [("message", JStr "What is my account status?")] fresh_session 7
              (<["messages" := VList 0]>
                 (<["user_id" := VStr "user-1"]>
                    (<["start_time" := VStr "2024-01-01T00:00:00"]> ∅)))
              0 [] (needs_tool [lookup_user "tu_1" "abc123"])
              {| id := "tu_1"; name := "fetch_user_data";
                 input := [("user_id", JStr "abc123")] |}
              (json_dumps
                 (JObj [ ("user_id", JStr "abc123"); ("name", JStr "User abc123");
                         ("email", JStr "userabc123@example.com");
                         ("account_status", JStr "active") ]))
              eq_refl eq_refl eq_refl eq_refl eq_refl eq_refl eq_refl eq_refl eq_refl)
    as [Hfinal _].
  exact (Hfinal (final [TextBlock "Your account is active."]) eq_refl
           ltac:(discriminate)).
Defined.

(** ** The stored transcript over time *)

Section Growth.

Variable create : nat -> list message -> result response.

Lemma try_respond_grows (fuel : nat) (sid : string) (l : loc) (w : world) :
  (forall st v,
     session_states w !! sid = Some st -> st !! "messages" = Some v -> v = VList l) ->
  grows w (final_world (try_respond create fuel sid l w)).
Proof.
  intros Hsame. rewrite try_respond_outcome.
  pose proof (stream_llm_response_extends create fuel sid l w) as E.
  destruct (stream_llm_response create fuel sid l w) as [text w1|e w1|w1];
    simpl final_world in *; apply (grows_trans _ w1); try (now apply extends_grows);
    try apply grows_refl.
  - split; simpl.
    + apply heap_append_grows.
    + apply states_update_kept. now rewrite (ext_states _ _ E).
  - apply extends_grows. unfold reported. apply extends_set_sent.
Qed.

Lemma try_respond_unknown_session (fuel : nat) (sid : string) (l : loc) (w : world) :
  session_states w !! sid = None ->
  session_states (final_world (try_respond create fuel sid l w)) = session_states w.
Proof.
  intros Hnone. rewrite try_respond_outcome.
  pose proof (stream_llm_response_extends create fuel sid l w) as E.
  destruct (stream_llm_response create fuel sid l w) as [text w1|e w1|w1];
    simpl in *; rewrite (ext_states _ _ E); try reflexivity.
  unfold states_update. now rewrite Hnone.
Qed.

Lemma grows_fields (w w' : world) :
  heap_grows (heap w) (heap w') -> session_states w' = session_states w ->
  grows w w'.
Proof.
  intros Hh Hs. split; [exact Hh |]. rewrite Hs. intros sid st v H1 H2. eauto.
Qed.

Lemma endpoint_receive_facts (fuel : nat) (sid : string) (data : json) (w : world) :
  grows w (final_world (endpoint_receive create fuel sid data w))
  /\ (session_states w !! sid = None ->
      session_states (final_world (endpoint_receive create fuel sid data w))
      = session_states w).
Proof.
  remember (endpoint_receive create fuel sid data w) as o eqn:Ho.
  unfold endpoint_receive in Ho.
  destruct data as [| b | n | x | s | xs | d];
    try (subst o; split; [apply grows_refl | reflexivity]).
  change (frame_get_message (JObj d))
    with (Ok (dict_get_default d "message" (JStr ""))) in Ho.
  rewrite bind_lift_ok in Ho.
  set (um := dict_get_default d "message" (JStr "")) in Ho.
  unfold bind at 1 in Ho. unfold log_event at 1 in Ho.
  set (w1 := set_event_logs _ w) in Ho.
  assert (G1 : grows w w1) by (apply grows_fields; [apply heap_grows_refl | reflexivity]).
  unfold bind at 1 in Ho. unfold get_session_state at 1 in Ho.
  change (session_states w1) with (session_states w) in Ho.
  assert (Hfresh :
            forall state,
              state !! "messages" = None ->
              (forall st, session_states w !! sid = Some st -> st = state) ->
              o = (let! messages := state_get_messages state in
                   match messages with
                   | VStr _ =>
                       raise (AttributeError "'str' object has no attribute 'append'")
                   | VList l =>
                       run! list_append l {| role := "user"; content := Plain um |} in
                       try_respond create fuel sid l
                   end) w1 ->
              grows w (final_world o)
              /\ (session_states w !! sid = None ->
                  session_states (final_world o) = session_states w)).
  { clear Ho. intros state Hm Hst Ho.
    set (w2 := set_heap
                 (heap_append (length (heap w1)) (user_turn um) (heap w1 ++ [[]]))
                 (set_heap (heap w1 ++ [[]]) w1)).
    assert (Ho' : o = try_respond create fuel sid (length (heap w1)) w2).
    { rewrite Ho. unfold bind at 1. unfold state_get_messages. rewrite Hm.
      unfold bind at 1. rewrite list_append_spec. reflexivity. }
    rewrite Ho'.
    assert (G2 : grows w w2).
    { apply grows_fields; [|reflexivity]. subst w2. simpl.
      eapply heap_grows_trans; [apply heap_alloc_grows | apply heap_append_grows]. }
    split.
    - apply (grows_trans _ w2); [exact G2 |].
      apply try_respond_grows. intros st v Hs Hv.
      change (session_states w2) with (session_states w) in Hs.
      rewrite (Hst st Hs) in Hv. congruence.
    - intros Hnone. now rewrite try_respond_unknown_session. }
  destruct (session_states w !! sid) as [st|] eqn:Hs.
  - destruct (st !! "messages") as [[s|l]|] eqn:Hm.
    + unfold bind at 1 in Ho. unfold state_get_messages in Ho. rewrite Hm in Ho.
      subst o. split; [exact G1 | discriminate].
    + unfold bind at 1 in Ho. unfold state_get_messages in Ho. rewrite Hm in Ho.
      unfold ret at 1 in Ho. unfold bind at 1 in Ho. rewrite list_append_spec in Ho.
      set (w2 := set_heap (heap_append _ _ _) _) in Ho. subst o.
      split; [|discriminate].
      apply (grows_trans _ w2).
      * apply grows_fields; [|reflexivity]. subst w2. simpl. apply heap_append_grows.
      * apply try_respond_grows. intros st' v Hs' Hv.
        change (session_states w2) with (session_states w) in Hs'. congruence.
    + apply (Hfresh st Hm); [intros st' Hs'; congruence | exact Ho].
  - apply (Hfresh ∅ (lookup_empty _)); [intros st' Hs'; discriminate | exact Ho].
Qed.

End Growth.

Lemma run_operation_transcript (create : nat -> list message -> result response)
    (op : operation) (w : world) (sid : string) (t : list message) :
  reopens sid op = false ->
  transcript w sid = Some t ->
  exists suffix,
    transcript (final_world (run_operation create op w)) sid = Some (t ++ suffix).
Proof.
  intros Hop Ht. destruct op as [ws sid' uid now | fuel sid' data | sid']; simpl in *.
  - apply String.eqb_neq in Hop.
    unfold endpoint_open. unfold bind, connect. rewrite send_message_spec. simpl.
    exists []. rewrite app_nil_r. revert Ht. unfold transcript. simpl.
    rewrite lookup_insert_ne by exact Hop.
    destruct (session_states w !! sid) as [st|]; [|discriminate].
    destruct (st !! "messages") as [[s|l]|]; try discriminate.
    intros Hl. rewrite lookup_app_l; [exact Hl | now apply lookup_lt_Some in Hl].
  - eapply grows_transcript; [|exact Ht]. apply endpoint_receive_facts.
  - exists []. rewrite app_nil_r. unfold endpoint_close, disconnect.
    destruct (active_connections w !! sid'); exact Ht.
Qed.

(** C8, as the code runs: opening a connection under a session id that
    already has a stored transcript replaces that transcript by an empty
    one. *)
Lemma reconnect_discards_transcript :
  let w := final_world (endpoint_receive account_status 5 "s" question fresh_session) in
  let w' := final_world (endpoint_open 8 "s" "user-2" "2024-01-02T00:00:00" w) in
  transcript w "s"
  = Some [ user_turn (JStr "What is my account status?");
           assistant_text_turn "Your account is active." ]
  /\ transcript w' "s" = Some []
  /\ ~ (exists suffix,
          transcript w' "s"
          = Some ([ user_turn (JStr "What is my account status?");
                    assistant_text_turn "Your account is active." ] ++ suffix)).
Proof.
  cbv zeta.
  assert (H : transcript
                (final_world
                   (endpoint_open 8 "s" "user-2" "2024-01-02T00:00:00"
                      (final_world
                         (endpoint_receive account_status 5 "s" question
                            fresh_session))))
                "s" = Some [])
    by (vm_compute; reflexivity).
  split; [vm_compute; reflexivity |]. split; [exact H |].
  intros [suffix H']. rewrite H in H'. discriminate H'.
Qed.

(** C8, amended: over any sequence of operations of the system (connections
    opened, frames received and answered, connections closed) in which no
    connection is opened under the session's own id, the stored transcript of
    a session only gains turns at its end: what it held before is a prefix of
    what it holds after. Opening a connection under an id, stored already or
    not, leaves that session with an empty transcript. *)
Theorem transcript_append_only :
  (forall (create : nat -> list message -> result response) (ops : list operation)
          (w : world) (sid : string) (t : list message),
     Forall (fun op => reopens sid op = false) ops ->
     transcript w sid = Some t ->
     exists suffix,
       transcript (run_operations create ops w) sid = Some (t ++ suffix))
  /\
  (forall (ws : websocket) (sid uid now : string) (w : world),
     transcript (final_world (endpoint_open ws sid uid now w)) sid = Some []).
Proof.
  split.
  - intros create ops w sid t Hops. revert w t.
    induction Hops as [|op ops Hop _ IH]; intros w t Ht; simpl.
    + exists []. now rewrite app_nil_r.
    + destruct (run_operation_transcript create op w sid t Hop Ht) as [s1 H1].
      destruct (IH _ _ H1) as [s2 H2].
      exists (s1 ++ s2). now rewrite app_assoc.
  - intros ws sid uid now w.
    unfold endpoint_open. unfold bind, connect. rewrite send_message_spec.
    unfold transcript. simpl. rewrite !lookup_insert_eq.
    rewrite lookup_app_r by lia. now rewrite Nat.sub_diag.
Qed.

Lemma transcript_append_only_witness :
  exists suffix,
    transcript
      (run_operations account_status
         [ Receive 5 "s" question;
           Open 9 "other" "user-2" "2024-01-02T00:00:00";
           Receive 5 "other" question;
           Close "s";
           Receive 5 "s" (JObj [("message", JStr "Thanks")]) ]
         pending_question)
      "s"
    = Some ([user_turn (JStr "What is my account status?")] ++ suffix).
Proof.
  apply (proj1 transcript_append_only account_status
           [ Receive 5 "s" question;
             Open 9 "other" "user-2" "2024-01-02T00:00:00";
             Receive 5 "other" question;
             Close "s";
             Receive 5 "s" (JObj [("message", JStr "Thanks")]) ]
           pending_question "s" [user_turn (JStr "What is my account status?")]).
  - repeat constructor.
  - reflexivity.
Defined.

(** ** Sessions that are not in the store *)

(** C9, as the code runs: writing to a session id that is not in the store
    returns normally and changes nothing; no error is reported. *)
Lemma update_of_unknown_session_is_silent :
  update_session_state "ghost" {[ "messages" := VList 0 ]} empty_world
  = Ret tt empty_world
  /\ ~ (forall sid state w,
          session_states w !! sid = None ->
          exists e w', update_session_state sid state w = Raise e w').
Proof.
  split; [reflexivity |].
  intros H.
  destruct (H "ghost" {[ "messages" := VList 0 ]} empty_world eq_refl) as (e & w' & He).
  discriminate He.
Qed.

(** C9, amended: for a session id that is not in the store no operation
    reports an error on that account. [update_session_state] returns normally
    and leaves the state as it is, [get_session_state] returns an empty state,
    and a frame handled for such an id appends its turns to a list that is not
    stored: the store still has no entry for the id afterwards. *)
Theorem unknown_session_is_ignored
    (create : nat -> list message -> result response) (sid : string) (w : world) :
  session_states w !! sid = None ->
  (forall state, update_session_state sid state w = Ret tt w)
  /\ get_session_state sid w = Ret ∅ w
  /\ (forall fuel data,
        session_states (final_world (endpoint_receive create fuel sid data w))
        = session_states w
        /\ transcript (final_world (endpoint_receive create fuel sid data w)) sid
           = None).
Proof.
  intros Hnone. split; [|split].
  - intros state. unfold update_session_state. now rewrite Hnone.
  - unfold get_session_state. now rewrite Hnone.
  - intros fuel data.
    pose proof (proj2 (endpoint_receive_facts create fuel sid data w) Hnone) as Hs.
    split; [exact Hs |]. unfold transcript. now rewrite Hs, Hnone.
Qed.

Lemma unknown_session_is_ignored_witness :
  update_session_state "ghost" {[ "messages" := VList 0 ]} fresh_session
  = Ret tt fresh_session
  /\ get_session_state "ghost" fresh_session = Ret ∅ fresh_session
  /\ transcript
       (final_world (endpoint_receive account_status 5 "ghost" question fresh_session))
       "ghost"
     = None.
Proof.
  destruct (unknown_session_is_ignored account_status "ghost" fresh_session eq_refl)
    as (H1 & H2 & H3).
  split; [apply H1 |]. split; [exact H2 |]. apply H3.
Defined.

(** * Further properties of the code *)

(** ** What a run sends and asks *)

Lemma delivered_nil (w : world) (sid : string) : delivered w sid [] = [].
Proof. unfold delivered. now destruct (active_connections w !! sid). Qed.

Lemma tool_frames_names (tool_calls : list tool_use) :
  tool_frames tool_calls = map tool_use_frame (map name tool_calls).
Proof. unfold tool_frames. now rewrite map_map. Qed.

Lemma notify_tool_calls_final (sid : string) (tool_calls : list tool_use) (w : world) :
  exists k,
    final_world (notify_tool_calls sid tool_calls w)
    = set_sent (sent w ++ delivered w sid (tool_frames (take k tool_calls))) w.
Proof.
  revert w. induction tool_calls as [|t tcs IH]; intros w.
  - exists 0. simpl. now rewrite delivered_nil, app_nil_r, set_sent_same.
  - simpl. destruct (process_tool_call (name t) (input t)) as [c|e].
    + rewrite bind_lift_ok, bind_send_message.
      destruct (IH (set_sent (sent w ++ delivered w sid [tool_use_frame (name t)]) w))
        as [k Hk].
      exists (S k). rewrite Hk. simpl.
      rewrite delivered_set_sent, <- app_assoc, <- delivered_app. reflexivity.
    + exists 0. rewrite bind_lift_err. simpl.
      now rewrite delivered_nil, app_nil_r, set_sent_same.
Qed.

Section Runs.

Variable create : nat -> list message -> result response.

Lemma tool_round_final (sid : string) (l : loc) (r : response) (w : world) :
  exists k,
    final_world (tool_round sid l r w)
    = set_sent
        (sent w ++ delivered w sid
                     (tool_frames (take k (tool_calls_of (response_content r)))))
        w.
Proof.
  destruct (notify_tool_calls_final sid (tool_calls_of (response_content r)) w)
    as [k Hk].
  exists k. rewrite <- Hk. unfold tool_round. rewrite final_world_bind.
  destruct (notify_tool_calls sid (tool_calls_of (response_content r)) w)
    as [u w1|e w1|w1]; try reflexivity.
  rewrite bind_read_list.
  destruct (build_tool_results (tool_calls_of (response_content r))) as [rs|e];
    reflexivity.
Qed.

(** The frames and the model calls of the loop, however it ends. *)
Lemma tool_loop_trace (sid : string) (l : loc) (fuel : nat) :
  forall (r : response) (text : string) (w : world),
    exists names new,
      sent (final_world (tool_loop create fuel sid l r text w))
      = sent w ++ delivered w sid (map tool_use_frame names)
      /\ calls (final_world (tool_loop create fuel sid l r text w))
         = calls w ++ new
      /\ Forall (fun c => default [] (heap w !! l) `prefix_of` fst c) new.
Proof.
  induction fuel as [|fuel IH]; intros r text w.
  - exists [], []. simpl. rewrite delivered_nil, !app_nil_r.
    destruct (String.eqb (stop_reason r) "tool_use"); simpl; auto.
  - destruct (String.eqb_spec (stop_reason r) "tool_use") as [Hstop | Hstop].
    + destruct (build_tool_results (tool_calls_of (response_content r)))
        as [rs|e] eqn:Hrs.
      * rewrite (tool_loop_step _ _ _ _ _ _ _ _ Hstop Hrs), bind_messages_create.
        cbv zeta. set (ms2 := default [] (heap w !! l) ++ _).
        set (w1 := set_sent _ w).
        set (w2 := set_calls _ w1).
        assert (Hout : exists names new,
                   sent (final_world
                           (match create (length (calls w1)) ms2 with
                            | Ok r' =>
                                tool_loop create fuel sid l r'
                                  (add_texts text (response_content r)) w2
                            | Err e => Raise e w2
                            end))
                   = sent w2 ++ delivered w2 sid (map tool_use_frame names)
                   /\ calls (final_world
                              (match create (length (calls w1)) ms2 with
                               | Ok r' =>
                                   tool_loop create fuel sid l r'
                                     (add_texts text (response_content r)) w2
                               | Err e => Raise e w2
                               end))
                      = calls w2 ++ new
                   /\ Forall (fun c => default [] (heap w2 !! l) `prefix_of` fst c) new).
        { destruct (create (length (calls w1)) ms2) as [r'|e]; [apply IH |].
          exists [], []. simpl. now rewrite delivered_nil, !app_nil_r. }
        destruct Hout as (names & new & Hsent & Hcalls & Hpre).
        exists (map name (tool_calls_of (response_content r)) ++ names),
               ((ms2, create (length (calls w1)) ms2) :: new).
        split; [|split].
        -- rewrite Hsent. subst w2 w1. simpl.
           rewrite map_app, delivered_app, <- tool_frames_names, app_assoc.
           reflexivity.
        -- rewrite Hcalls. subst w2 w1. simpl. now rewrite <- app_assoc.
        -- constructor; [|exact Hpre]. subst ms2. simpl. now apply prefix_app_r.
      * destruct (tool_round_outcome sid l r w) as [[rs Hrs'] | (e' & fs & Hraise)];
          [congruence |].
        destruct (tool_round_final sid l r w) as [k Hk].
        simpl. apply String.eqb_eq in Hstop. rewrite Hstop.
        rewrite final_world_bind. rewrite Hraise in *. simpl in Hk. rewrite Hk.
        exists (map name (take k (tool_calls_of (response_content r)))), [].
        simpl. rewrite app_nil_r, <- tool_frames_names. auto.
    + rewrite (tool_loop_final _ _ _ _ _ _ _ Hstop).
      exists [], []. simpl. rewrite delivered_nil, !app_nil_r. auto.
Qed.

Lemma stream_llm_response_trace (fuel : nat) (sid : string) (l : loc) (w : world) :
  let ms := default [] (heap w !! l) in
  exists names new,
    sent (final_world (stream_llm_response create fuel sid l w))
    = sent w ++ delivered w sid (map tool_use_frame names)
    /\ calls (final_world (stream_llm_response create fuel sid l w))
       = calls w ++ (ms, create (length (calls w)) ms) :: new
    /\ Forall (fun c => ms `prefix_of` fst c) new.
Proof.
  intros ms. unfold stream_llm_response.
  rewrite bind_read_list, bind_messages_create. cbv zeta. fold ms.
  destruct (create (length (calls w)) ms) as [r|e] eqn:Hc.
  - set (w1 := set_calls _ w).
    destruct (tool_loop_trace sid l fuel r "" w1) as (names & new & Hs & Hcl & Hp).
    exists names, new. rewrite Hs, Hcl. subst w1. simpl.
    rewrite <- app_assoc. auto.
  - exists [], []. simpl. rewrite delivered_nil, app_nil_r. auto.
Qed.

(** How a returning loop got there. *)
Lemma tool_loop_rounds (sid : string) (l : loc) (fuel : nat) :
  forall (r : response) (text : string) (w : world) (text' : string) (w' : world),
    tool_loop create fuel sid l r text w = Ret text' w' ->
    exists new,
      calls w' = calls w ++ new
      /\ length new <= fuel
      /\ length (observed_responses new) = length new
      /\ rounds_then_final (r :: observed_responses new) (length new).
Proof.
  induction fuel as [|fuel IH]; intros r text w text' w' Hrun.
  - simpl in Hrun.
    destruct (String.eqb_spec (stop_reason r) "tool_use") as [Hstop | Hstop];
      [discriminate |].
    injection Hrun as _ <-. exists []. rewrite app_nil_r.
    repeat split; auto. exists [], r. repeat split; auto.
  - destruct (String.eqb_spec (stop_reason r) "tool_use") as [Hstop | Hstop].
    + destruct (tool_round_outcome sid l r w) as [[rs Hrs] | (e & fs & Hraise)].
      * rewrite (tool_loop_step _ _ _ _ _ _ _ _ Hstop Hrs) in Hrun.
        rewrite bind_messages_create in Hrun. cbv zeta in Hrun.
        destruct (create _ _) as [r'|e]; [|discriminate].
        destruct (IH _ _ _ _ _ Hrun) as (new & Hcalls & Hlen & Hobs & Hshape).
        simpl in Hcalls. rewrite <- app_assoc in Hcalls.
        eexists. split; [exact Hcalls |].
        change (observed_responses ([(?m, Ok r')] ++ new))
          with (r' :: observed_responses new).
        simpl length. split; [lia |]. split; [now rewrite Hobs |].
        destruct Hshape as (init & last & Heq & Hli & Hall & Hlast).
        exists (r :: init), last. simpl. rewrite Heq, Hli.
        repeat split; auto.
      * simpl in Hrun. apply String.eqb_eq in Hstop. rewrite Hstop in Hrun.
        unfold bind at 1 in Hrun. rewrite Hraise in Hrun. discriminate.
    + rewrite (tool_loop_final _ _ _ _ _ _ _ Hstop) in Hrun.
      injection Hrun as _ <-. exists []. rewrite app_nil_r.
      repeat split; simpl; auto; try lia. exists [], r. repeat split; auto.
Qed.

End Runs.

(** ** A received frame, case by case *)

Section Frames.

Variable create : nat -> list message -> result response.

(** The four ways the loop body can go before its [try]. *)
Lemma endpoint_receive_shape (fuel : nat) (sid : string) (data : json) (w : world) :
  endpoint_receive create fuel sid data w =
  match frame_get_message data with
  | Err e => Raise e w
  | Ok um =>
      match default ∅ (session_states w !! sid) !! "messages" with
      | Some (VStr _) =>
          Raise (AttributeError "'str' object has no attribute 'append'")
            (logged sid um w)
      | Some (VList l) => try_respond create fuel sid l (received sid um l w)
      | None =>
          try_respond create fuel sid (length (heap w))
            (received sid um (length (heap w)) (allocated w))
      end
  end.
Proof.
  unfold endpoint_receive.
  destruct (frame_get_message data) as [um|e]; [|reflexivity].
  rewrite bind_lift_ok. unfold bind at 1. unfold log_event at 1.
  unfold bind at 1. unfold get_session_state at 1. simpl session_states.
  assert (Hstate :
            forall state : gmap string value,
              (let! messages := state_get_messages state in
               match messages with
               | VStr _ =>
                   raise (AttributeError "'str' object has no attribute 'append'")
               | VList l =>
                   run! list_append l {| role := "user"; content := Plain um |} in
                   try_respond create fuel sid l
               end) (logged sid um w)
              = match state !! "messages" with
                | Some (VStr _) =>
                    Raise (AttributeError "'str' object has no attribute 'append'")
                      (logged sid um w)
                | Some (VList l) => try_respond create fuel sid l (received sid um l w)
                | None =>
                    try_respond create fuel sid (length (heap w))
                      (received sid um (length (heap w)) (allocated w))
                end).
  { intros state. unfold bind at 1. unfold state_get_messages.
    destruct (state !! "messages") as [[s|l]|].
    - reflexivity.
    - unfold ret at 1. unfold bind at 1. rewrite list_append_spec. reflexivity.
    - unfold bind at 1. rewrite list_append_spec. reflexivity. }
  destruct (session_states w !! sid) as [st|]; apply Hstate.
Qed.

Lemma delivered_extends (w w' : world) (sid : string) (msgs : list json) :
  extends w w' -> delivered w' sid msgs = delivered w sid msgs.
Proof. intros E. unfold delivered. now rewrite (ext_connections _ _ E). Qed.

(** A frame handled for a session as [connect] made it: what was asked of the
    service, and the three ways the exchange can end. *)
Lemma exchange_cases (fuel : nat) (sid : string) (d : list (string * json))
    (w : world) (st : gmap string value) (l : loc) (ms : list message) :
  let um := dict_get_default d "message" (JStr "") in
  let asked := user_turn um in
  let o := endpoint_receive create fuel sid (JObj d) w in
  let entry := log_entry sid "user_message" (JObj [("content", um)]) in
  session_states w !! sid = Some st ->
  st !! "messages" = Some (VList l) ->
  heap w !! l = Some ms ->
  exists names new,
    let tools := delivered w sid (map tool_use_frame names) in
    calls (final_world o)
    = calls w ++ (ms ++ [asked], create (length (calls w)) (ms ++ [asked])) :: new
    /\ Forall (fun c => (ms ++ [asked]) `prefix_of` fst c) new
    /\ session_states (final_world o) = session_states w
    /\ active_connections (final_world o) = active_connections w
    /\ ((exists text,
           o = Ret tt (final_world o)
           /\ sent (final_world o)
              = sent w ++ tools ++ delivered w sid [response_frame text]
           /\ heap (final_world o)
              = <[l := ms ++ [asked; assistant_text_turn text]]> (heap w)
           /\ event_logs (final_world o)
              = event_logs w
                ++ [entry;
                    log_entry sid "ai_response" (JObj [("content", JStr text)])])
        \/ (exists e,
              o = Ret tt (final_world o)
              /\ sent (final_world o)
                 = sent w ++ tools ++ delivered w sid [error_frame (exn_str e)]
              /\ heap (final_world o) = <[l := ms ++ [asked]]> (heap w)
              /\ event_logs (final_world o) = event_logs w ++ [entry])
        \/ (o = Timeout (final_world o)
            /\ sent (final_world o) = sent w ++ tools
            /\ heap (final_world o) = <[l := ms ++ [asked]]> (heap w)
            /\ event_logs (final_world o) = event_logs w ++ [entry])).
Proof.
  intros um asked o entry Hs Hm Hl. subst o.
  rewrite endpoint_receive_shape.
  change (frame_get_message (JObj d)) with (Ok um). cbv iota.
  rewrite Hs. simpl (default _ _). rewrite Hm.
  rewrite try_respond_outcome.
  set (w1 := received sid um l w).
  assert (Hh1 : heap w1 = <[l := ms ++ [asked]]> (heap w)).
  { subst w1. simpl. unfold heap_append. now rewrite Hl. }
  assert (Hl1 : heap w1 !! l = Some (ms ++ [asked])).
  { rewrite Hh1. apply list_lookup_insert_eq. now apply lookup_lt_Some in Hl. }
  pose proof (stream_llm_response_extends create fuel sid l w1) as E.
  destruct (stream_llm_response_trace create fuel sid l w1)
    as (names & new & Hsent & Hcalls & Hpre).
  rewrite Hl1 in Hcalls, Hpre. simpl (default _ _) in Hcalls, Hpre.
  change (calls w1) with (calls w) in Hcalls.
  change (sent w1) with (sent w) in Hsent.
  change (delivered w1 sid) with (delivered w sid) in Hsent.
  exists names, new.
  destruct (stream_llm_response create fuel sid l w1) as [text w2|e w2|w2];
    simpl final_world in *; cbv zeta.
  - split; [exact Hcalls |]. split; [exact Hpre |].
    split.
    { simpl. rewrite (ext_states _ _ E).
      exact (states_update_same _ _ _ _ Hs Hm). }
    split; [simpl; exact (ext_connections _ _ E) |].
    left. exists text. split; [reflexivity |].
    split; [|split].
    + simpl. rewrite Hsent, <- app_assoc.
      change (delivered ?x sid ?m) with (delivered w2 sid m) at 2.
      now rewrite (delivered_extends _ _ _ _ E).
    + simpl. rewrite (ext_heap _ _ E). unfold heap_append. rewrite Hl1, Hh1.
      rewrite list_insert_insert_eq, <- app_assoc. reflexivity.
    + simpl. rewrite (ext_logs _ _ E). subst w1. simpl.
      now rewrite <- app_assoc.
  - split; [exact Hcalls |]. split; [exact Hpre |].
    split; [simpl; exact (ext_states _ _ E) |].
    split; [simpl; exact (ext_connections _ _ E) |].
    right. left. exists e. split; [reflexivity |].
    split; [|split].
    + simpl. rewrite Hsent, <- app_assoc.
      now rewrite (delivered_extends _ _ _ _ E).
    + simpl. now rewrite (ext_heap _ _ E).
    + simpl. now rewrite (ext_logs _ _ E).
  - split; [exact Hcalls |]. split; [exact Hpre |].
    split; [exact (ext_states _ _ E) |].
    split; [exact (ext_connections _ _ E) |].
    right. right. split; [reflexivity |].
    split; [exact Hsent |]. split; [now rewrite (ext_heap _ _ E) |].
    now rewrite (ext_logs _ _ E).
Qed.

End Frames.

(** ** Runs of the tool-call loop *)

(** X1: however a run of [stream_llm_response] ends, it leaves the caller's
    message list and every other list, all session states, the connection
    table and the event log as they were; the only frames it sends are
    tool_use frames with status completed, to the connection of its own
    session. *)
Theorem run_leaves_store_untouched
    (create : nat -> list message -> result response) (fuel : nat) (sid : string)
    (l : loc) (w : world) :
  let w' := final_world (stream_llm_response create fuel sid l w) in
  heap w' = heap w
  /\ session_states w' = session_states w
  /\ active_connections w' = active_connections w
  /\ event_logs w' = event_logs w
  /\ exists names, sent w' = sent w ++ delivered w sid (map tool_use_frame names).
Proof.
  cbv zeta.
  pose proof (stream_llm_response_extends create fuel sid l w) as E.
  destruct (stream_llm_response_trace create fuel sid l w) as (names & new & Hs & _).
  repeat split; try apply E. now exists names.
Qed.

(** X2: the first model call of a run is given exactly the caller's messages,
    and every later call of the run a list that begins with them, in order. *)
Theorem every_call_begins_with_the_callers_messages
    (create : nat -> list message -> result response) (fuel : nat) (sid : string)
    (l : loc) (w : world) (ms : list message) :
  heap w !! l = Some ms ->
  let made :=
    calls_since (length (calls w))
      (final_world (stream_llm_response create fuel sid l w)) in
  (exists rest, made = (ms, create (length (calls w)) ms) :: rest)
  /\ Forall (fun c => ms `prefix_of` fst c) made.
Proof.
  intros Hl made. subst made. unfold calls_since.
  destruct (stream_llm_response_trace create fuel sid l w) as (names & new & _ & Hc & Hp).
  rewrite Hl in Hc, Hp. simpl (default _ _) in Hc, Hp.
  rewrite Hc, drop_app_length. split; [eauto |].
  constructor; [reflexivity | exact Hp].
Qed.

Lemma every_call_begins_with_the_callers_messages_witness :
  Forall
    (fun c => [user_turn (JStr "What is my account status?")] `prefix_of` fst c)
    (calls_since 0
       (final_world (stream_llm_response two_rounds 5 "s" 0 pending_question))).
Proof.
  apply (every_call_begins_with_the_callers_messages two_rounds 5 "s" 0
           pending_question [user_turn (JStr "What is my account status?")]).
  reflexivity.
Defined.

(** X3: a run returns at the first response whose stop reason is not
    tool_use, and not before: the responses it saw are some tool_use
    responses followed by exactly one other; every call was answered, the
    number of calls is the number of tool rounds plus one, and the rounds do
    not exceed the iterations followed. *)
Theorem run_returns_at_first_final_response
    (create : nat -> list message -> result response) (fuel : nat) (sid : string)
    (l : loc) (w : world) (text : string) (w' : world) :
  stream_llm_response create fuel sid l w = Ret text w' ->
  exists rounds,
    rounds <= fuel
    /\ length (calls w') = length (calls w) + rounds + 1
    /\ length (observed_responses (calls_since (length (calls w)) w')) = rounds + 1
    /\ rounds_then_final
         (observed_responses (calls_since (length (calls w)) w')) rounds.
Proof.
  intros Hrun. unfold stream_llm_response in Hrun.
  rewrite bind_read_list, bind_messages_create in Hrun. cbv zeta in Hrun.
  destruct (create _ _) as [r|e]; [|discriminate].
  destruct (tool_loop_rounds _ _ _ _ _ _ _ _ _ Hrun)
    as (new & Hcalls & Hlen & Hobs & Hshape).
  simpl in Hcalls. rewrite <- app_assoc in Hcalls.
  exists (length new). unfold calls_since. rewrite Hcalls, drop_app_length.
  change (observed_responses ([(?m, Ok r)] ++ new))
    with (r :: observed_responses new).
  split; [exact Hlen |]. split; [rewrite !length_app; simpl; lia |].
  split; [simpl; lia | exact Hshape].
Qed.

Lemma run_returns_at_first_final_response_witness :
  exists rounds,
    rounds <= 5
    /\ length (calls (final_world
                        (stream_llm_response two_rounds 5 "s" 0 pending_question)))
       = 0 + rounds + 1
    /\ rounds_then_final
         (observed_responses
            (calls_since 0
               (final_world
                  (stream_llm_response two_rounds 5 "s" 0 pending_question))))
         rounds.
Proof.
  destruct (run_returns_at_first_final_response two_rounds 5 "s" 0 pending_question
              "One. Two. Three."
              (final_world (stream_llm_response two_rounds 5 "s" 0 pending_question))
              eq_refl)
    as (rounds & H1 & H2 & _ & H4).
  exists rounds. split; [exact H1 |]. split; [exact H2 | exact H4].
Defined.

(** ** Frames handled for a session *)

Lemma transcript_after_insert (w w' : world) (sid : string)
    (st : gmap string value) (l : loc) (ms ms' : list message) :
  session_states w !! sid = Some st ->
  st !! "messages" = Some (VList l) ->
  heap w !! l = Some ms ->
  session_states w' = session_states w ->
  heap w' = <[l := ms']> (heap w) ->
  transcript w' sid = Some ms'.
Proof.
  intros Hs Hm Hl Hs' Hh'. rewrite <- Hs' in Hs.
  rewrite (transcript_lookup _ _ _ _ Hs Hm), Hh'.
  apply list_lookup_insert_eq. now apply lookup_lt_Some in Hl.
Qed.

(** X4: a frame that is a JSON object, handled for a session as [connect]
    made it, never makes the handler raise, whatever fails inside (the model
    service or a tool, in any round): the handler returns, or its loop is
    still running. The stored transcript gains the user message and at most
    one assistant turn holding plain text; it never gains a tool turn. *)
Theorem handled_frame_never_raises
    (create : nat -> list message -> result response) (fuel : nat) (sid : string)
    (d : list (string * json)) (w : world) (st : gmap string value) (l : loc)
    (ms : list message) :
  let asked := user_turn (dict_get_default d "message" (JStr "")) in
  let o := endpoint_receive create fuel sid (JObj d) w in
  session_states w !! sid = Some st ->
  st !! "messages" = Some (VList l) ->
  heap w !! l = Some ms ->
  (o = Ret tt (final_world o) \/ o = Timeout (final_world o))
  /\ (transcript (final_world o) sid = Some (ms ++ [asked])
      \/ exists text,
           transcript (final_world o) sid
           = Some (ms ++ [asked; assistant_text_turn text])).
Proof.
  intros asked o Hs Hm Hl.
  destruct (exchange_cases create fuel sid d w st l ms Hs Hm Hl)
    as (names & new & _ & _ & Hst & _ & Hcase).
  cbv zeta in Hcase. fold o asked in Hst, Hcase.
  destruct Hcase as [(text & Ho & _ & Hh & _) | [(e & Ho & _ & Hh & _) | (Ho & _ & Hh & _)]].
  - split; [now left |]. right. exists text.
    exact (transcript_after_insert _ _ _ _ _ _ _ Hs Hm Hl Hst Hh).
  - split; [now left |]. left.
    exact (transcript_after_insert _ _ _ _ _ _ _ Hs Hm Hl Hst Hh).
  - split; [now right |]. left.
    exact (transcript_after_insert _ _ _ _ _ _ _ Hs Hm Hl Hst Hh).
Qed.

Lemma handled_frame_never_raises_witness :
  let o := endpoint_receive fails_in_round_two 5 "s" question fresh_session in
  (o = Ret tt (final_world o) \/ o = Timeout (final_world o))
  /\ (transcript (final_world o) "s"
      = Some ([] ++ [user_turn (JStr "What is my account status?")])
      \/ exists text,
           transcript (final_world o) "s"
           = Some ([] ++ [ user_turn (JStr "What is my account status?");
                           assistant_text_turn text ])).
Proof.
  exact (handled_frame_never_raises fails_in_round_two 5 "s"
           [("message", JStr "What is my account status?")] fresh_session
           (<["messages" := VList 0]>
              (<["user_id" := VStr "user-1"]>
                 (<["start_time" := VStr "2024-01-01T00:00:00"]> ∅)))
           0 [] eq_refl eq_refl eq_refl).
Defined.

(** X5: when the handler of a frame returns, the client has been sent the
    tool_use frames of the run and then exactly one closing frame. If that is
    a response frame, its text is the text of the assistant turn now stored
    and of the ai_response entry now logged; if it is an error frame, the
    transcript holds the user message only and nothing but the user message
    was logged. *)
Theorem reply_matches_stored_turn
    (create : nat -> list message -> result response) (fuel : nat) (sid : string)
    (d : list (string * json)) (w : world) (ws : websocket)
    (st : gmap string value) (l : loc) (ms : list message) (w' : world) :
  let um := dict_get_default d "message" (JStr "") in
  let asked := user_turn um in
  let entry := log_entry sid "user_message" (JObj [("content", um)]) in
  active_connections w !! sid = Some ws ->
  session_states w !! sid = Some st ->
  st !! "messages" = Some (VList l) ->
  heap w !! l = Some ms ->
  endpoint_receive create fuel sid (JObj d) w = Ret tt w' ->
  exists names,
    let tools := map (fun n => (ws, tool_use_frame n)) names in
    (exists text,
       sent w' = sent w ++ tools ++ [(ws, response_frame text)]
       /\ transcript w' sid = Some (ms ++ [asked; assistant_text_turn text])
       /\ event_logs w'
          = event_logs w
            ++ [entry; log_entry sid "ai_response" (JObj [("content", JStr text)])])
    \/ (exists e,
          sent w' = sent w ++ tools ++ [(ws, error_frame (exn_str e))]
          /\ transcript w' sid = Some (ms ++ [asked])
          /\ event_logs w' = event_logs w ++ [entry]).
Proof.
  intros um asked entry Hc Hs Hm Hl Hrun.
  destruct (exchange_cases create fuel sid d w st l ms Hs Hm Hl)
    as (names & new & _ & _ & Hst & _ & Hcase).
  cbv zeta in Hcase. rewrite Hrun in Hst, Hcase. simpl final_world in *.
  unfold delivered in Hcase. rewrite Hc in Hcase.
  rewrite map_map in Hcase. fold um asked entry in Hcase.
  exists names. cbv zeta.
  destruct Hcase as [(text & _ & Hsent & Hh & Hlog)
                    | [(e & _ & Hsent & Hh & Hlog) | (Ho & _)]].
  - left. exists text. split; [exact Hsent |]. split; [|exact Hlog].
    exact (transcript_after_insert _ _ _ _ _ _ _ Hs Hm Hl Hst Hh).
  - right. exists e. split; [exact Hsent |]. split; [|exact Hlog].
    exact (transcript_after_insert _ _ _ _ _ _ _ Hs Hm Hl Hst Hh).
  - discriminate Ho.
Qed.

Lemma reply_matches_stored_turn_witness :
  exists names,
    (exists text,
       sent (final_world (endpoint_receive two_rounds 5 "s" question fresh_session))
       = sent fresh_session
         ++ map (fun n => (7, tool_use_frame n)) names
         ++ [(7, response_frame text)]
       /\ transcript
            (final_world (endpoint_receive two_rounds 5 "s" question fresh_session))
            "s"
          = Some ([] ++ [ user_turn (JStr "What is my account status?");
                          assistant_text_turn text ]))
    \/ (exists e,
          sent (final_world (endpoint_receive two_rounds 5 "s" question fresh_session))
          = sent fresh_session
            ++ map (fun n => (7, tool_use_frame n)) names
            ++ [(7, error_frame (exn_str e))]).
Proof.
  destruct (reply_matches_stored_turn two_rounds 5 "s"
              [("message", JStr "What is my account status?")] fresh_session 7
              (<["messages" := VList 0]>
                 (<["user_id" := VStr "user-1"]>
                    (<["start_time" := VStr "2024-01-01T00:00:00"]> ∅)))
              0 []
              (final_world (endpoint_receive two_rounds 5 "s" question fresh_session))
              eq_refl eq_refl eq_refl eq_refl eq_refl)
    as (names & [(text & H1 & H2 & _) | (e & H1 & _)]).
  - exists names. left. exists text. split; [exact H1 | exact H2].
  - exists names. right. exists e. exact H1.
Defined.

(** ** Sessions without a registered connection *)

Lemma delivered_none (w : world) (sid : string) (msgs : list json) :
  active_connections w !! sid = None -> delivered w sid msgs = [].
Proof. intros H. unfold delivered. now rewrite H. Qed.

Lemma try_respond_silent (create : nat -> list message -> result response)
    (fuel : nat) (sid : string) (l : loc) (w : world) :
  active_connections w !! sid = None ->
  sent (final_world (try_respond create fuel sid l w)) = sent w.
Proof.
  intros Hnone. rewrite try_respond_outcome.
  pose proof (stream_llm_response_extends create fuel sid l w) as E.
  destruct (stream_llm_response_trace create fuel sid l w) as (names & new & Hs & _).
  rewrite (delivered_none _ _ _ Hnone), app_nil_r in Hs.
  assert (Hnone' : active_connections
                     (final_world (stream_llm_response create fuel sid l w)) !! sid
                   = None) by now rewrite (ext_connections _ _ E).
  destruct (stream_llm_response create fuel sid l w) as [text w1|e w1|w1];
    simpl in *.
  - unfold delivered. simpl. now rewrite Hnone', app_nil_r.
  - unfold delivered. now rewrite Hnone', app_nil_r.
  - exact Hs.
Qed.

(** X6: a frame handled for a session id that has no registered connection
    (after [disconnect], say) sends nothing at all, neither tool_use frames nor
    a response nor an error. The exchange is carried out all the same for a
    session that is stored: the user message is logged and appended to the
    transcript, and the model service is called with the transcript so
    extended; a run that returns a text has it logged and stored as the
    assistant turn, any other run leaves the transcript at the user message.
    When the first response asks for no tool round the handler returns, with
    one model call made and the concatenated text of that response logged and
    stored. *)
Theorem no_connection_no_frames
    (create : nat -> list message -> result response) (fuel : nat) (sid : string)
    (w : world) :
  active_connections w !! sid = None ->
  (forall data,
     sent (final_world (endpoint_receive create fuel sid data w)) = sent w)
  /\
  (forall d st l ms,
     session_states w !! sid = Some st ->
     st !! "messages" = Some (VList l) ->
     heap w !! l = Some ms ->
     let um := dict_get_default d "message" (JStr "") in
     let asked := user_turn um in
     let o := endpoint_receive create fuel sid (JObj d) w in
     let entry := log_entry sid "user_message" (JObj [("content", um)]) in
     (exists new,
        calls (final_world o)
        = calls w ++ (ms ++ [asked], create (length (calls w)) (ms ++ [asked])) :: new)
     /\ ((exists text,
            o = Ret tt (final_world o)
            /\ transcript (final_world o) sid
               = Some (ms ++ [asked; assistant_text_turn text])
            /\ event_logs (final_world o)
               = event_logs w
                 ++ [entry;
                     log_entry sid "ai_response" (JObj [("content", JStr text)])])
         \/ ((o = Ret tt (final_world o) \/ o = Timeout (final_world o))
             /\ transcript (final_world o) sid = Some (ms ++ [asked])
             /\ event_logs (final_world o) = event_logs w ++ [entry]))
     /\ (forall r,
          create (length (calls w)) (ms ++ [asked]) = Ok r ->
          stop_reason r <> "tool_use" ->
          let text := concat_strings (text_fragments (response_content r)) in
          o = Ret tt (final_world o)
          /\ calls (final_world o) = calls w ++ [(ms ++ [asked], Ok r)]
          /\ transcript (final_world o) sid
             = Some (ms ++ [asked; assistant_text_turn text])
          /\ event_logs (final_world o)
             = event_logs w
               ++ [entry;
                   log_entry sid "ai_response" (JObj [("content", JStr text)])])).
Proof.
  intros Hnone. split.
  - intros data. rewrite endpoint_receive_shape.
    destruct (frame_get_message data) as [um|e]; [|reflexivity].
    destruct (default ∅ (session_states w !! sid) !! "messages") as [[s|l]|].
    + reflexivity.
    + now rewrite try_respond_silent.
    + now rewrite try_respond_silent.
  - intros d st l ms Hs Hm Hl um asked o entry. split; [|split].
    + destruct (exchange_cases create fuel sid d w st l ms Hs Hm Hl)
        as (names & new & Hcalls & _).
      exists new. exact Hcalls.
    + destruct (exchange_cases create fuel sid d w st l ms Hs Hm Hl)
        as (names & new & _ & _ & Hst & _ & Hcase).
      cbv zeta in Hcase. fold um asked o entry in Hcase, Hst.
      destruct Hcase
        as [(text & Ho & _ & Hh & Hlog)
           | [(e & Ho & _ & Hh & Hlog) | (Ho & _ & Hh & Hlog)]].
      * left. exists text. split; [exact Ho |]. split; [|exact Hlog].
        exact (transcript_after_insert _ _ _ _ _ _ _ Hs Hm Hl Hst Hh).
      * right. split; [left; exact Ho |]. split; [|exact Hlog].
        exact (transcript_after_insert _ _ _ _ _ _ _ Hs Hm Hl Hst Hh).
      * right. split; [right; exact Ho |]. split; [|exact Hlog].
        exact (transcript_after_insert _ _ _ _ _ _ _ Hs Hm Hl Hst Hh).
    + intros r Hok Hstop text. subst o.
      rewrite (endpoint_receive_unfold _ _ _ _ _ _ _ Hs Hm), try_respond_outcome.
      fold um.
      set (w1 := received _ _ _ _).
      assert (Hl1 : heap w1 !! l = Some (ms ++ [asked])).
      { subst w1. simpl. now apply heap_append_lookup. }
      rewrite (stream_llm_response_first_call _ _ _ _ _ _ Hl1). cbv zeta.
      change (calls w1) with (calls w). rewrite Hok.
      rewrite (tool_loop_final _ _ _ _ _ _ _ Hstop).
      rewrite add_texts_fragments. change ("" +:+ ?x) with x. fold text.
      split; [reflexivity |]. split; [reflexivity |].
      split.
      * unfold transcript, responded. simpl.
        rewrite (states_update_same _ _ _ _ Hs Hm), Hs, Hm.
        rewrite (heap_append_lookup _ _ _ _ Hl1), <- app_assoc. reflexivity.
      * unfold responded. simpl. now rewrite <- app_assoc.
Qed.

Lemma no_connection_no_frames_witness :
  let w := final_world (endpoint_close "s" fresh_session) in
  let asked := user_turn (JStr "What is my account status?") in
  let w' := final_world (endpoint_receive account_status 5 "s" question w) in
  sent w' = sent w
  /\ (exists new, calls w' = calls w ++ ([asked], account_status 0 [asked]) :: new)
  /\ ((exists text, transcript w' "s" = Some [asked; assistant_text_turn text])
      \/ transcript w' "s" = Some [asked]).
Proof.
  intros w asked w'.
  pose proof (no_connection_no_frames account_status 5 "s" w eq_refl) as [Hsent Hrun].
  split; [exact (Hsent question) |].
  destruct (Hrun [("message", JStr "What is my account status?")]
              (<["messages" := VList 0]>
                 (<["user_id" := VStr "user-1"]>
                    (<["start_time" := VStr "2024-01-01T00:00:00"]> ∅)))
              0 [] eq_refl eq_refl eq_refl)
    as (Hcalls & Hcase & _).
  split; [exact Hcalls |].
  destruct Hcase as [(text & _ & Ht & _) | (_ & Ht & _)].
  - left. exists text. exact Ht.
  - right. exact Ht.
Defined.

(** ** Failing tools and malformed frames *)

Lemma notify_tool_calls_failure (sid : string) (pre : list tool_use) (t : tool_use)
    (post : list tool_use) (e : exn) (w : world) :
  Forall (fun x => exists c, process_tool_call (name x) (input x) = Ok c) pre ->
  process_tool_call (name t) (input t) = Err e ->
  notify_tool_calls sid (pre ++ t :: post) w
  = Raise e (set_sent (sent w ++ delivered w sid (tool_frames pre)) w).
Proof.
  intros Hpre Ht. revert w. induction Hpre as [|x pre [c Hc] _ IH]; intros w.
  - simpl. rewrite Ht, bind_lift_err. now rewrite delivered_nil, app_nil_r, set_sent_same.
  - simpl. rewrite Hc, bind_lift_ok, bind_send_message, IH. simpl.
    rewrite delivered_set_sent, <- app_assoc, <- delivered_app. reflexivity.
Qed.

(** X7: when a tool raises while the requests of the first response are run,
    the requests before it have each been announced by a tool_use frame, the
    failing one and those after it are not announced, no further model call is
    made, the client receives one error frame with the text of the exception,
    and the stored transcript gains the user message only. *)
Theorem tool_failure_is_reported
    (create : nat -> list message -> result response) (fuel : nat) (sid : string)
    (d : list (string * json)) (w : world) (ws : websocket)
    (st : gmap string value) (l : loc) (ms : list message)
    (r1 : response) (pre : list tool_use) (t : tool_use) (post : list tool_use)
    (e : exn) :
  let asked := user_turn (dict_get_default d "message" (JStr "")) in
  active_connections w !! sid = Some ws ->
  session_states w !! sid = Some st ->
  st !! "messages" = Some (VList l) ->
  heap w !! l = Some ms ->
  create (length (calls w)) (ms ++ [asked]) = Ok r1 ->
  stop_reason r1 = "tool_use" ->
  tool_calls_of (response_content r1) = pre ++ t :: post ->
  Forall (fun x => exists c, process_tool_call (name x) (input x) = Ok c) pre ->
  process_tool_call (name t) (input t) = Err e ->
  exists w',
    endpoint_receive create (S fuel) sid (JObj d) w = Ret tt w'
    /\ sent w' = sent w
                 ++ map (fun x => (ws, tool_use_frame (name x))) pre
                 ++ [(ws, error_frame (exn_str e))]
    /\ length (calls w') = S (length (calls w))
    /\ transcript w' sid = Some (ms ++ [asked]).
Proof.
  intros asked Hc Hs Hm Hl Hok Hstop Htcs Hpre Ht.
  rewrite (endpoint_receive_unfold _ _ _ _ _ _ _ Hs Hm), try_respond_outcome.
  set (w1 := received _ _ _ _).
  assert (Hl1 : heap w1 !! l = Some (ms ++ [asked])).
  { subst w1. simpl. now apply heap_append_lookup. }
  rewrite (stream_llm_response_first_call _ _ _ _ _ _ Hl1). cbv zeta.
  change (calls w1) with (calls w). rewrite Hok.
  set (w2 := set_calls _ w1).
  assert (Hloop : tool_loop create (S fuel) sid l r1 "" w2
                  = Raise e (set_sent (sent w2 ++ delivered w2 sid (tool_frames pre)) w2)).
  { simpl. apply String.eqb_eq in Hstop. rewrite Hstop.
    unfold bind at 1. unfold tool_round. unfold bind at 1.
    now rewrite Htcs, (notify_tool_calls_failure _ _ _ _ _ _ Hpre Ht). }
  rewrite Hloop. eexists. split; [reflexivity |].
  unfold reported, delivered. simpl. rewrite Hc. simpl.
  split; [|split].
  - unfold tool_frames. now rewrite map_map, <- app_assoc.
  - rewrite length_app. simpl. lia.
  - unfold transcript. simpl. rewrite Hs, Hm. exact Hl1.
Qed.

Lemma tool_failure_is_reported_witness :
  exists w',
    endpoint_receive bad_tool_input 1 "s" question fresh_session = Ret tt w'
    /\ sent w' = sent fresh_session
                 ++ [(7, tool_use_frame "fetch_user_data")]
                 ++ [(7, error_frame "'int' object is not subscriptable")]
    /\ length (calls w') = 1
    /\ transcript w' "s" = Some [user_turn (JStr "What is my account status?")].
Proof.
  apply (tool_failure_is_reported bad_tool_input 0 "s"
           [("message", JStr "What is my account status?")] fresh_session 7
           (<["messages" := VList 0]>
              (<["user_id" := VStr "user-1"]>
                 (<["start_time" := VStr "2024-01-01T00:00:00"]> ∅)))
           0 []
           (needs_tool [ ToolUseBlock (known_user "tu_1" "abc123");
                         ToolUseBlock numeric_user;
                         ToolUseBlock (known_user "tu_3" "xyz789") ])
           [known_user "tu_1" "abc123"] numeric_user [known_user "tu_3" "xyz789"]
           (TypeError "'int' object is not subscriptable"));
    try reflexivity.
  constructor; [eexists; reflexivity | constructor].
Defined.

(** X8: a received frame that is not a JSON object makes the handler raise
    AttributeError at [data.get], outside its [try]: nothing has been logged,
    stored or sent, and the connection is still registered. *)
Theorem non_object_frame_is_rejected
    (create : nat -> list message -> result response) (fuel : nat) (sid : string)
    (data : json) (w : world) :
  (forall d, data <> JObj d) ->
  exists msg, endpoint_receive create fuel sid data w = Raise (AttributeError msg) w.
Proof.
  intros Hobj. rewrite endpoint_receive_shape.
  destruct data; simpl; eauto. now destruct (Hobj kvs).
Qed.

Lemma non_object_frame_is_rejected_witness :
  exists msg,
    endpoint_receive account_status 5 "s" (JArr [JStr "hello"]) fresh_session
    = Raise (AttributeError msg) fresh_session.
Proof.
  apply (non_object_frame_is_rejected account_status 5 "s" (JArr [JStr "hello"])
           fresh_session).
  intros d H. discriminate H.
Defined.

(** X9: a frame object without a "message" entry is handled as the empty
    message: the model service is called with a user turn whose content is the
    empty string, and that turn is stored in the transcript. *)
Theorem missing_message_is_empty_text
    (create : nat -> list message -> result response) (fuel : nat) (sid : string)
    (d : list (string * json)) (w : world) (st : gmap string value) (l : loc)
    (ms : list message) :
  dict_get d "message" = None ->
  session_states w !! sid = Some st ->
  st !! "messages" = Some (VList l) ->
  heap w !! l = Some ms ->
  let w' := final_world (endpoint_receive create fuel sid (JObj d) w) in
  (exists answer,
     calls w' !! length (calls w) = Some (ms ++ [user_turn (JStr "")], answer))
  /\ exists rest, transcript w' sid = Some (ms ++ user_turn (JStr "") :: rest).
Proof.
  intros Hd Hs Hm Hl w'. subst w'.
  destruct (exchange_cases create fuel sid d w st l ms Hs Hm Hl)
    as (names & new & Hcalls & _ & Hst & _ & Hcase).
  cbv zeta in Hcase. unfold dict_get_default in *. rewrite Hd in *.
  split.
  - eexists. rewrite Hcalls, lookup_app_r by lia.
    now rewrite Nat.sub_diag.
  - destruct Hcase as [(text & _ & _ & Hh & _) | [(e & _ & _ & Hh & _) | (_ & _ & Hh & _)]].
    + exists [assistant_text_turn text].
      exact (transcript_after_insert _ _ _ _ _ _ _ Hs Hm Hl Hst Hh).
    + exists []. exact (transcript_after_insert _ _ _ _ _ _ _ Hs Hm Hl Hst Hh).
    + exists []. exact (transcript_after_insert _ _ _ _ _ _ _ Hs Hm Hl Hst Hh).
Qed.

Lemma missing_message_is_empty_text_witness :
  exists rest,
    transcript
      (final_world
         (endpoint_receive account_status 5 "s" (JObj [("text", JStr "hi")])
            fresh_session))
      "s"
    = Some ([] ++ user_turn (JStr "") :: rest).
Proof.
  apply (missing_message_is_empty_text account_status 5 "s" [("text", JStr "hi")]
           fresh_session
           (<["messages" := VList 0]>
              (<["user_id" := VStr "user-1"]>
                 (<["start_time" := VStr "2024-01-01T00:00:00"]> ∅)))
           0 [] eq_refl eq_refl eq_refl eq_refl).
Defined.

(** ** Closing a connection *)

(** X10: closing a connection removes the connection of that session id and
    nothing else: the connections of other sessions, every session state and
    every stored transcript (that of the closed session too) stay as they
    were, nothing is sent, and closing again changes nothing. *)
Theorem close_keeps_the_session (sid : string) (w : world) :
  let w' := final_world (endpoint_close sid w) in
  active_connections w' !! sid = None
  /\ (forall sid', sid' <> sid ->
        active_connections w' !! sid' = active_connections w !! sid')
  /\ session_states w' = session_states w
  /\ (forall sid', transcript w' sid' = transcript w sid')
  /\ sent w' = sent w
  /\ final_world (endpoint_close sid w') = w'.
Proof.
  cbv zeta. unfold endpoint_close, disconnect.
  destruct (active_connections w !! sid) as [ws|] eqn:Hc; simpl.
  - rewrite lookup_delete_eq. repeat split; try reflexivity.
    intros sid' Hne. now rewrite lookup_delete_ne.
  - rewrite Hc. repeat split; auto.
Qed.

Lemma close_keeps_the_session_witness :
  active_connections (final_world (endpoint_close "s" fresh_session)) !! "other"
  = active_connections fresh_session !! "other".
Proof.
  apply (proj1 (proj2 (close_keeps_the_session "s" fresh_session)) "other").
  discriminate.
Defined.

(** ** Sessions do not share their lists *)

Lemma same_elsewhere_refl (l : loc) (h : list (list message)) : same_elsewhere l h h.
Proof. intros l' _ _. reflexivity. Qed.

Lemma same_elsewhere_trans (l : loc) (h1 h2 h3 : list (list message)) :
  same_elsewhere l h1 h2 -> same_elsewhere l h2 h3 -> same_elsewhere l h1 h3.
Proof.
  intros H12 H23 l' Hne Hsome.
  rewrite <- (H12 l' Hne Hsome). apply H23; [exact Hne |].
  now rewrite (H12 l' Hne Hsome).
Qed.

Lemma same_elsewhere_append (l : loc) (m : message) (h : list (list message)) :
  same_elsewhere l h (heap_append l m h).
Proof.
  intros l' Hne _. unfold heap_append.
  destruct (h !! l); [|reflexivity]. now rewrite list_lookup_insert_ne.
Qed.

Lemma same_elsewhere_alloc (l : loc) (h : list (list message)) :
  same_elsewhere l h (h ++ [[]]).
Proof.
  intros l' _ [ms Hms]. rewrite lookup_app_l; [reflexivity |].
  now apply lookup_lt_Some in Hms.
Qed.

Section Isolation.

Variable create : nat -> list message -> result response.

Lemma try_respond_same_elsewhere (fuel : nat) (sid : string) (l : loc) (w : world) :
  same_elsewhere l (heap w) (heap (final_world (try_respond create fuel sid l w))).
Proof.
  rewrite try_respond_outcome.
  pose proof (stream_llm_response_extends create fuel sid l w) as E.
  destruct (stream_llm_response create fuel sid l w) as [text w1|e w1|w1];
    simpl in *; rewrite (ext_heap _ _ E);
    [apply same_elsewhere_append | apply same_elsewhere_refl..].
Qed.

Lemma try_respond_states (fuel : nat) (sid : string) (l : loc) (w : world) :
  (forall st, session_states w !! sid = Some st -> st !! "messages" = Some (VList l)) ->
  session_states (final_world (try_respond create fuel sid l w)) = session_states w.
Proof.
  intros Hm. rewrite try_respond_outcome.
  pose proof (stream_llm_response_extends create fuel sid l w) as E.
  destruct (stream_llm_response create fuel sid l w) as [text w1|e w1|w1];
    simpl in *; rewrite (ext_states _ _ E); try reflexivity.
  destruct (session_states w !! sid) as [st|] eqn:Hs.
  - exact (states_update_same _ _ _ _ Hs (Hm st eq_refl)).
  - unfold states_update. now rewrite Hs.
Qed.

Lemma endpoint_receive_same_elsewhere (fuel : nat) (sid : string) (data : json)
    (w : world) :
  same_elsewhere (target sid w) (heap w)
    (heap (final_world (endpoint_receive create fuel sid data w))).
Proof.
  rewrite endpoint_receive_shape. unfold target.
  destruct (frame_get_message data) as [um|e]; [|apply same_elsewhere_refl].
  destruct (default ∅ (session_states w !! sid) !! "messages") as [[s|l]|].
  - apply same_elsewhere_refl.
  - eapply same_elsewhere_trans; [|apply try_respond_same_elsewhere].
    simpl. apply same_elsewhere_append.
  - eapply same_elsewhere_trans; [|apply try_respond_same_elsewhere].
    simpl. eapply same_elsewhere_trans;
      [apply same_elsewhere_alloc | apply same_elsewhere_append].
Qed.

Lemma endpoint_receive_states (fuel : nat) (sid : string) (data : json) (w : world) :
  (forall st, session_states w !! sid = Some st ->
     exists l, st !! "messages" = Some (VList l)) ->
  session_states (final_world (endpoint_receive create fuel sid data w))
  = session_states w.
Proof.
  intros Hshape. rewrite endpoint_receive_shape.
  destruct (frame_get_message data) as [um|e]; [|reflexivity].
  destruct (session_states w !! sid) as [st|] eqn:Hs; simpl (default _ _).
  - destruct (Hshape st eq_refl) as [l Hm]. rewrite Hm.
    rewrite try_respond_states; [reflexivity |].
    intros st'. change (session_states (received ?a ?b ?c w)) with (session_states w).
    rewrite Hs. now intros [= <-].
  - rewrite lookup_empty. now rewrite try_respond_unknown_session.
Qed.

(** What one frame may add to the session states: nothing, or the
    ["messages"] entry of its own session. *)
Lemma endpoint_receive_states_cases (fuel : nat) (sid : string) (data : json)
    (w : world) :
  exists l,
    session_states (final_world (endpoint_receive create fuel sid data w))
    = session_states w
    \/ session_states (final_world (endpoint_receive create fuel sid data w))
       = states_update sid {[ "messages" := VList l ]} (session_states w).
Proof.
  rewrite endpoint_receive_shape.
  assert (Htry : forall l w1,
            session_states w1 = session_states w ->
            session_states (final_world (try_respond create fuel sid l w1))
            = session_states w
            \/ session_states (final_world (try_respond create fuel sid l w1))
               = states_update sid {[ "messages" := VList l ]} (session_states w)).
  { intros l w1 H1. rewrite try_respond_outcome.
    pose proof (stream_llm_response_extends create fuel sid l w1) as E.
    destruct (stream_llm_response create fuel sid l w1) as [text w2|e w2|w2];
      simpl in *; rewrite (ext_states _ _ E), H1; auto. }
  destruct (frame_get_message data) as [um|e]; [|exists 0; now left].
  destruct (default ∅ (session_states w !! sid) !! "messages") as [[s|l]|].
  - exists 0. now left.
  - exists l. now apply Htry.
  - exists (length (heap w)). now apply Htry.
Qed.

Lemma well_formed_receive (fuel : nat) (sid : string) (data : json) (w : world) :
  well_formed w ->
  well_formed (final_world (endpoint_receive create fuel sid data w)).
Proof.
  intros [Hown Hdistinct].
  assert (Hs : session_states (final_world (endpoint_receive create fuel sid data w))
               = session_states w).
  { apply endpoint_receive_states. intros st Hst.
    destruct (Hown sid st Hst) as (l & Hm & _). eauto. }
  destruct (endpoint_receive_facts create fuel sid data w) as [[Hgrow _] _].
  split.
  - intros sid0 st0. rewrite Hs. intros Hst0.
    destruct (Hown sid0 st0 Hst0) as (l & Hm & [ms Hms]).
    exists l. split; [exact Hm |].
    destruct (Hgrow l ms Hms) as [suffix Hl]. eauto.
  - rewrite Hs. exact Hdistinct.
Qed.

End Isolation.

Lemma well_formed_open (ws : websocket) (sid uid now : string) (w : world) :
  well_formed w -> well_formed (final_world (endpoint_open ws sid uid now w)).
Proof.
  intros [Hown Hdistinct].
  unfold endpoint_open. unfold bind, connect. rewrite send_message_spec. simpl.
  assert (Hold : forall sid0 st0 l,
            session_states w !! sid0 = Some st0 ->
            st0 !! "messages" = Some (VList l) -> l < length (heap w)).
  { intros sid0 st0 l H0 Hm0. destruct (Hown sid0 st0 H0) as (l' & Hm' & [ms Hms]).
    rewrite Hm0 in Hm'. injection Hm' as <-. now apply lookup_lt_Some in Hms. }
  split; simpl.
  - intros sid0 st0 H0.
    destruct (decide (sid = sid0)) as [<- | Hne].
    + rewrite lookup_insert_eq in H0. injection H0 as <-.
      exists (length (heap w)). rewrite lookup_insert_eq. split; [reflexivity |].
      rewrite lookup_app_r by lia. now rewrite Nat.sub_diag.
    + rewrite lookup_insert_ne in H0 by exact Hne.
      destruct (Hown sid0 st0 H0) as (l & Hm & [ms Hms]).
      exists l. split; [exact Hm |]. exists ms.
      rewrite lookup_app_l; [exact Hms | now apply lookup_lt_Some in Hms].
  - intros sid1 sid2 st1 st2 l H1 H2 Hm1 Hm2.
    destruct (decide (sid = sid1)) as [E1 | N1];
      destruct (decide (sid = sid2)) as [E2 | N2].
    + congruence.
    + exfalso. subst sid1. rewrite lookup_insert_eq in H1. injection H1 as <-.
      rewrite lookup_insert_eq in Hm1. injection Hm1 as <-.
      rewrite lookup_insert_ne in H2 by exact N2.
      pose proof (Hold _ _ _ H2 Hm2). lia.
    + exfalso. subst sid2. rewrite lookup_insert_eq in H2. injection H2 as <-.
      rewrite lookup_insert_eq in Hm2. injection Hm2 as <-.
      rewrite lookup_insert_ne in H1 by exact N1.
      pose proof (Hold _ _ _ H1 Hm1). lia.
    + rewrite lookup_insert_ne in H1 by exact N1.
      rewrite lookup_insert_ne in H2 by exact N2.
      exact (Hdistinct _ _ _ _ _ H1 H2 Hm1 Hm2).
Qed.

Lemma well_formed_close (sid : string) (w : world) :
  well_formed w -> well_formed (final_world (endpoint_close sid w)).
Proof.
  intros Hw. unfold endpoint_close, disconnect.
  destruct (active_connections w !! sid); exact Hw.
Qed.

Lemma well_formed_operation (create : nat -> list message -> result response)
    (op : operation) (w : world) :
  well_formed w -> well_formed (final_world (run_operation create op w)).
Proof.
  destruct op; simpl;
    [apply well_formed_open | apply well_formed_receive | apply well_formed_close].
Qed.

Lemma well_formed_operations (create : nat -> list message -> result response)
    (ops : list operation) (w : world) :
  well_formed w -> well_formed (run_operations create ops w).
Proof.
  revert w. induction ops as [|op ops IH]; intros w Hw; simpl; [exact Hw |].
  apply IH. now apply well_formed_operation.
Qed.

Lemma well_formed_empty : well_formed empty_world.
Proof. split; simpl; intros *; rewrite lookup_empty; discriminate. Qed.

(** X11: in every state the process can reach from its start by opening
    connections, handling frames and closing connections, every stored
    session has a "messages" entry that is a list of its own: the list
    exists, and no two session ids share one list object. *)
Theorem sessions_have_lists_of_their_own
    (create : nat -> list message -> result response) (ops : list operation) :
  well_formed (run_operations create ops empty_world).
Proof. apply well_formed_operations, well_formed_empty. Qed.

(** X12: where every session has a list of its own (as in every reachable
    state), handling a frame for one session leaves the stored transcript of
    every other session exactly as it was, however the exchange ends. *)
Theorem frame_leaves_other_sessions_alone
    (create : nat -> list message -> result response) (fuel : nat)
    (sid sid' : string) (data : json) (w : world) :
  well_formed w ->
  sid <> sid' ->
  transcript (final_world (endpoint_receive create fuel sid' data w)) sid
  = transcript w sid.
Proof.
  intros [Hown Hdistinct] Hne.
  assert (Hs : session_states (final_world (endpoint_receive create fuel sid' data w))
               = session_states w).
  { apply endpoint_receive_states. intros st Hst.
    destruct (Hown sid' st Hst) as (l & Hm & _). eauto. }
  unfold transcript. rewrite Hs.
  destruct (session_states w !! sid) as [st|] eqn:Hst; [|reflexivity].
  destruct (Hown sid st Hst) as (l & Hm & Hsome). rewrite Hm.
  apply endpoint_receive_same_elsewhere; [|exact Hsome].
  unfold target.
  destruct (session_states w !! sid') as [st'|] eqn:Hst'; simpl (default _ _).
  - destruct (Hown sid' st' Hst') as (l' & Hm' & _). rewrite Hm'.
    intros ->. apply Hne. exact (Hdistinct _ _ _ _ _ Hst Hst' Hm Hm').
  - rewrite lookup_empty. destruct Hsome as [ms Hms].
    apply lookup_lt_Some in Hms. lia.
Qed.

Lemma frame_leaves_other_sessions_alone_witness :
  transcript
    (final_world
       (endpoint_receive account_status 5 "other" question
          (run_operations account_status
             [ Open 7 "s" "user-1" "t1"; Receive 5 "s" question;
               Open 8 "other" "user-2" "t2" ]
             empty_world)))
    "s"
  = transcript
      (run_operations account_status
         [ Open 7 "s" "user-1" "t1"; Receive 5 "s" question;
           Open 8 "other" "user-2" "t2" ]
         empty_world)
      "s".
Proof.
  apply (frame_leaves_other_sessions_alone account_status 5 "s" "other" question).
  - apply well_formed_operations, well_formed_empty.
  - discriminate.
Defined.

(** ** What a session keeps *)

Lemma states_update_other_key (sid sid' : string) (l : loc) (k : string)
    (s : gmap string (gmap string value)) (st : gmap string value) :
  k <> "messages" ->
  s !! sid = Some st ->
  exists st',
    states_update sid' {[ "messages" := VList l ]} s !! sid = Some st'
    /\ st' !! k = st !! k.
Proof.
  intros Hk Hs. unfold states_update.
  destruct (s !! sid') as [st0|] eqn:Hs0; [|eauto].
  destruct (decide (sid' = sid)) as [-> | Hne].
  - rewrite lookup_insert_eq. eexists. split; [reflexivity |].
    rewrite Hs in Hs0. injection Hs0 as <-.
    rewrite lookup_union_r; [reflexivity |].
    apply lookup_singleton_ne. congruence.
  - rewrite lookup_insert_ne by exact Hne. eauto.
Qed.

Lemma operation_keeps_identity (create : nat -> list message -> result response)
    (op : operation) (w : world) (sid : string) (st : gmap string value)
    (k : string) :
  k <> "messages" ->
  reopens sid op = false ->
  session_states w !! sid = Some st ->
  exists st',
    session_states (final_world (run_operation create op w)) !! sid = Some st'
    /\ st' !! k = st !! k.
Proof.
  intros Hk Hop Hs. destruct op as [ws sid' uid now | fuel sid' data | sid']; simpl in *.
  - apply String.eqb_neq in Hop.
    unfold endpoint_open. unfold bind, connect. rewrite send_message_spec. simpl.
    rewrite lookup_insert_ne by exact Hop. eauto.
  - destruct (endpoint_receive_states_cases create fuel sid' data w) as [l [-> | ->]].
    + eauto.
    + now apply states_update_other_key.
  - unfold endpoint_close, disconnect.
    destruct (active_connections w !! sid'); eauto.
Qed.

(** X13: a session, once stored, stays stored with the user id and the start
    time it was given at [connect]: no sequence of operations that does not
    open a connection under the same id again removes the session state
    (closing the connection does not) or changes these two entries. *)
Theorem session_identity_is_stable
    (create : nat -> list message -> result response) (ops : list operation)
    (w : world) (sid : string) (st : gmap string value) :
  Forall (fun op => reopens sid op = false) ops ->
  session_states w !! sid = Some st ->
  exists st',
    session_states (run_operations create ops w) !! sid = Some st'
    /\ st' !! "user_id" = st !! "user_id"
    /\ st' !! "start_time" = st !! "start_time".
Proof.
  intros Hops. revert w st.
  induction Hops as [|op ops Hop _ IH]; intros w st Hs; simpl.
  - eauto.
  - assert (Hone : exists st1,
              session_states (final_world (run_operation create op w)) !! sid
              = Some st1
              /\ st1 !! "user_id" = st !! "user_id"
              /\ st1 !! "start_time" = st !! "start_time").
    { destruct (operation_keeps_identity create op w sid st "user_id"
                  ltac:(discriminate) Hop Hs) as (st1 & H1 & Hu).
      destruct (operation_keeps_identity create op w sid st "start_time"
                  ltac:(discriminate) Hop Hs) as (st2 & H2 & Ht).
      rewrite H1 in H2. injection H2 as <-. eauto. }
    destruct Hone as (st1 & H1 & Hu & Ht).
    destruct (IH _ _ H1) as (st' & H' & Hu' & Ht').
    exists st'. split; [exact H' |]. split; congruence.
Qed.

Lemma session_identity_is_stable_witness :
  exists st',
    session_states
      (run_operations account_status
         [ Receive 5 "s" question; Close "s"; Open 8 "other" "user-2" "t2";
           Receive 5 "s" question ]
         fresh_session)
      !! "s"
    = Some st'
    /\ st' !! "user_id" = Some (VStr "user-1")
    /\ st' !! "start_time" = Some (VStr "2024-01-01T00:00:00").
Proof.
  destruct (session_identity_is_stable account_status
              [ Receive 5 "s" question; Close "s"; Open 8 "other" "user-2" "t2";
                Receive 5 "s" question ]
              fresh_session "s"
              (<["messages" := VList 0]>
                 (<["user_id" := VStr "user-1"]>
                    (<["start_time" := VStr "2024-01-01T00:00:00"]> ∅))))
    as (st' & H1 & H2 & H3).
  - repeat constructor.
  - reflexivity.
  - exists st'. split; [exact H1 |]. split; [exact H2 | exact H3].
Defined.

(** ** The text of tool results *)

Lemma string_take_length (n : nat) (s : string) :
  String.length (string_take n s) = Nat.min n (String.length s).
Proof.
  revert s. induction n as [|n IH]; intros [|c s]; simpl; auto.
Qed.

Lemma string_take_prefix (n : nat) (s : string) :
  exists rest, s = string_take n s +:+ rest.
Proof.
  revert s. induction n as [|n IH]; intros [|c s]; simpl.
  - now exists "".
  - now exists (String c s).
  - now exists "".
  - destruct (IH s) as [rest Hrest]. exists rest.
    rewrite string_app_cons. now rewrite <- Hrest.
Qed.

Lemma string_take_all (n : nat) (s : string) :
  String.length s <= n -> string_take n s = s.
Proof.
  revert s. induction n as [|n IH]; intros [|c s]; simpl; intros Hle;
    try reflexivity; try lia.
  f_equal. apply IH. lia.
Qed.

(** X14: for a string argument, [fetch_user_data] returns the argument in
    full under "user_id", and builds the name and the e-mail address from
    its first eight characters: a prefix of the argument, eight characters
    long unless the argument is shorter, and the whole argument when it has at
    most eight characters. *)
Theorem fetch_user_data_uses_eight_characters (s : string) :
  exists p,
    fetch_user_data (JStr s)
    = Ok (JObj [ ("user_id", JStr s);
                 ("name", JStr ("User " +:+ p));
                 ("email", JStr ("user" +:+ p +:+ "@example.com"));
                 ("account_status", JStr "active") ])
    /\ String.length p = Nat.min 8 (String.length s)
    /\ (exists rest, s = p +:+ rest)
    /\ (String.length s <= 8 -> p = s).
Proof.
  exists (string_take 8 s). split; [reflexivity |].
  split; [apply string_take_length |].
  split; [apply string_take_prefix | apply string_take_all].
Qed.

Lemma fetch_user_data_uses_eight_characters_witness :
  exists p,
    fetch_user_data (JStr "abc123")
    = Ok (JObj [ ("user_id", JStr "abc123");
                 ("name", JStr ("User " +:+ p));
                 ("email", JStr ("user" +:+ p +:+ "@example.com"));
                 ("account_status", JStr "active") ])
    /\ p = "abc123".
Proof.
  destruct (fetch_user_data_uses_eight_characters "abc123") as (p & H1 & _ & _ & H4).
  exists p. split; [exact H1 |]. apply H4. simpl. lia.
Defined.

(** ** Who is told what *)

(** X16: in a tool round whose tools all return, every request of the
    response, unregistered tool names included, is announced to the client by
    one tool_use frame with status completed, in the order of the requests,
    and all of them are sent before anything else the run sends. *)
Theorem each_request_is_announced_in_order
    (create : nat -> list message -> result response) (fuel : nat) (sid : string)
    (l : loc) (r : response) (text : string) (w : world) (ws : websocket) :
  active_connections w !! sid = Some ws ->
  stop_reason r = "tool_use" ->
  Forall (fun t => exists c, process_tool_call (name t) (input t) = Ok c)
    (tool_calls_of (response_content r)) ->
  (sent w ++ map (fun t => (ws, tool_use_frame (name t)))
               (tool_calls_of (response_content r)))
  `prefix_of` sent (final_world (tool_loop create (S fuel) sid l r text w)).
Proof.
  intros Hc Hstop Hall.
  destruct (build_tool_results_returns _ Hall) as [rs Hrs].
  rewrite (tool_loop_step _ _ _ _ _ _ _ _ Hstop Hrs), bind_messages_create.
  cbv zeta. set (w1 := set_sent _ w). set (w2 := set_calls _ w1).
  assert (H2 : sent w2 = sent w ++ map (fun t => (ws, tool_use_frame (name t)))
                                      (tool_calls_of (response_content r))).
  { subst w2 w1. simpl. unfold delivered, tool_frames. rewrite Hc.
    now rewrite map_map. }
  rewrite <- H2.
  destruct (create (length (calls w1)) _) as [r'|e]; [|reflexivity].
  apply ext_sent, tool_loop_extends.
Qed.

Lemma each_request_is_announced_in_order_witness :
  (sent pending_question
   ++ [(7, tool_use_frame "fetch_user_data"); (7, tool_use_frame "send_email")])
  `prefix_of`
  sent (final_world
          (tool_loop account_status 1 "s" 0
             (needs_tool [ lookup_user "tu_1" "abc123";
                           ToolUseBlock {| id := "tu_2"; name := "send_email";
                                           input := [] |} ])
             "" pending_question)).
Proof.
  apply (each_request_is_announced_in_order account_status 0 "s" 0
           (needs_tool [ lookup_user "tu_1" "abc123";
                         ToolUseBlock {| id := "tu_2"; name := "send_email";
                                         input := [] |} ])
           "" pending_question 7).
  - reflexivity.
  - reflexivity.
  - repeat (constructor; [eexists; reflexivity |]). constructor.
Defined.

Lemma try_respond_sent (create : nat -> list message -> result response)
    (fuel : nat) (sid : string) (l : loc) (w : world) :
  exists msgs,
    sent (final_world (try_respond create fuel sid l w))
    = sent w ++ delivered w sid msgs.
Proof.
  rewrite try_respond_outcome.
  pose proof (stream_llm_response_extends create fuel sid l w) as E.
  destruct (stream_llm_response_trace create fuel sid l w) as (names & new & Hs & _).
  destruct (stream_llm_response create fuel sid l w) as [text w1|e w1|w1];
    simpl in *.
  - exists (map tool_use_frame names ++ [response_frame text]).
    rewrite Hs, delivered_app, <- app_assoc. f_equal. f_equal.
    unfold delivered. simpl. now rewrite (ext_connections _ _ E).
  - exists (map tool_use_frame names ++ [error_frame (exn_str e)]).
    rewrite Hs, delivered_app, <- app_assoc. f_equal. f_equal.
    unfold delivered. now rewrite (ext_connections _ _ E).
  - eauto.
Qed.

Lemma endpoint_receive_sent (create : nat -> list message -> result response)
    (fuel : nat) (sid : string) (data : json) (w : world) :
  exists msgs,
    sent (final_world (endpoint_receive create fuel sid data w))
    = sent w ++ delivered w sid msgs.
Proof.
  rewrite endpoint_receive_shape.
  assert (Hnil : sent w = sent w ++ delivered w sid [])
    by now rewrite delivered_nil, app_nil_r.
  destruct (frame_get_message data) as [um|e]; [|exists []; exact Hnil].
  destruct (default ∅ (session_states w !! sid) !! "messages") as [[s|l]|].
  - exists []. exact Hnil.
  - destruct (try_respond_sent create fuel sid l (received sid um l w)) as [msgs H].
    exists msgs. exact H.
  - destruct (try_respond_sent create fuel sid (length (heap w))
                (received sid um (length (heap w)) (allocated w))) as [msgs H].
    exists msgs. exact H.
Qed.

(** X17: a connection opened under a session id takes the place of whatever
    connection was registered under that id. The greeting goes to the new
    socket, and so does every frame of an exchange handled for that session
    afterwards; the socket registered before is sent none of them. *)
Theorem frames_go_to_the_latest_connection
    (create : nat -> list message -> result response) (ws : websocket)
    (sid uid now : string) (w : world) (fuel : nat) (data : json) :
  let w1 := final_world (endpoint_open ws sid uid now w) in
  sent w1
  = sent w ++ [(ws, JObj [ ("type", JStr "connection"); ("status", JStr "connected");
                           ("session_id", JStr sid) ])]
  /\ exists msgs,
       sent (final_world (endpoint_receive create fuel sid data w1))
       = sent w1 ++ map (pair ws) msgs.
Proof.
  cbv zeta.
  assert (Hc : active_connections (final_world (endpoint_open ws sid uid now w)) !! sid
               = Some ws).
  { unfold endpoint_open. unfold bind, connect. rewrite send_message_spec. simpl.
    apply lookup_insert_eq. }
  split.
  - unfold endpoint_open. unfold bind, connect. rewrite send_message_spec. simpl.
    unfold delivered. simpl. now rewrite lookup_insert_eq.
  - destruct (endpoint_receive_sent create fuel sid data
                (final_world (endpoint_open ws sid uid now w))) as [msgs Hm].
    exists msgs. rewrite Hm. unfold delivered. now rewrite Hc.
Qed.

(** ** Responses that ask for no tool round *)

(** X18: when the stop reason of the first response is not tool_use, the run
    ends there: tool_use blocks the response may carry are neither run nor
    announced, a single model call is made, and the reply is the
    concatenation of its text blocks. A response without any text block gives
    the empty reply: a response frame with empty content is sent and an
    assistant turn with empty text is stored. *)
Theorem response_without_tool_round
    (create : nat -> list message -> result response) (fuel : nat) (sid : string)
    (d : list (string * json)) (w : world) (ws : websocket)
    (st : gmap string value) (l : loc) (ms : list message) (r : response) :
  let asked := user_turn (dict_get_default d "message" (JStr "")) in
  let text := concat_strings (text_fragments (response_content r)) in
  active_connections w !! sid = Some ws ->
  session_states w !! sid = Some st ->
  st !! "messages" = Some (VList l) ->
  heap w !! l = Some ms ->
  create (length (calls w)) (ms ++ [asked]) = Ok r ->
  stop_reason r <> "tool_use" ->
  exists w',
    endpoint_receive create fuel sid (JObj d) w = Ret tt w'
    /\ sent w' = sent w ++ [(ws, response_frame text)]
    /\ transcript w' sid = Some (ms ++ [asked; assistant_text_turn text])
    /\ length (calls w') = S (length (calls w))
    /\ (text_fragments (response_content r) = [] -> text = "").
Proof.
  intros asked text Hc Hs Hm Hl Hok Hstop.
  destruct (receive_final_answer create fuel sid d w ws st l ms r Hc Hs Hm Hl Hok Hstop)
    as (w' & Hrun & Hsent & Hl' & _ & Hs' & Hcalls).
  exists w'. split; [exact Hrun |]. split; [exact Hsent |].
  split; [|split; [exact Hcalls |]].
  - rewrite <- Hs' in Hs. now rewrite (transcript_lookup _ _ _ _ Hs Hm).
  - intros Hnone. subst text. now rewrite Hnone.
Qed.

Lemma response_without_tool_round_witness :
  exists w',
    endpoint_receive cut_short 5 "s" question fresh_session = Ret tt w'
    /\ sent w' = sent fresh_session ++ [(7, response_frame "")]
    /\ transcript w' "s"
       = Some [user_turn (JStr "What is my account status?"); assistant_text_turn ""]
    /\ length (calls w') = 1.
Proof.
  destruct (response_without_tool_round cut_short 5 "s"
              [("message", JStr "What is my account status?")] fresh_session 7
              (<["messages" := VList 0]>
                 (<["user_id" := VStr "user-1"]>
                    (<["start_time" := VStr "2024-01-01T00:00:00"]> ∅)))
              0 []
              {| stop_reason := "max_tokens";
                 response_content := [lookup_user "tu_1" "abc123"] |}
              eq_refl eq_refl eq_refl eq_refl eq_refl ltac:(discriminate))
    as (w' & H1 & H2 & H3 & H4 & _).
  exists w'. split; [exact H1 |]. split; [exact H2 |]. split; [exact H3 | exact H4].
Defined.
